(** * shreddit: the comment stream, the retention filter and the
      edit-then-delete workflow

    A shallow embedding of the two entry-point programs of the repository:
    [src/main.go] (policy read from [config.json]) and its older sibling
    [src/unnamed/part_000] (policy read from the environment only).

    Conventions.
    - Go integers are [Z]; where an [int64] can wrap the wrap-around is
      written out ([wrap64]).
    - [time.Time] values without a monotonic clock reading (all the times of
      these programs: [time.Unix], [time.Parse], [Time.AddDate]) are a pair
      of internal seconds and nanoseconds.
    - [float64] is the IEEE-754 specification type [spec_float].
    - Everything a goroutine does to the outside world is an [Event]; a
      function with effects returns its value together with the events it
      produced, in order (a writer monad).
    - The network is scripted: the replies the platform gives are inputs of
      the model, the requests the program sends are events. *)

From Stdlib Require Import ZArith List Ascii String Bool Lia SpecFloat.
Import ListNotations.
Open Scope string_scope.
Open Scope list_scope.
Open Scope Z_scope.

(** ** Machine integers and time *)

Definition min_int64 : Z := - 2 ^ 63.
Definition max_int64 : Z := 2 ^ 63 - 1.

Definition wrap64 (z : Z) : Z := (z + 2 ^ 63) mod 2 ^ 64 - 2 ^ 63.

(** [time.Time] with no monotonic reading: [sec] is the [ext] field (seconds
    since January 1, year 1), [nsec] the nanoseconds kept in [wall]. *)
Record Time := mkTime { sec : Z; nsec : Z }.

(** [time.Duration] counts nanoseconds. *)
Definition Second : Z := 1000000000.

Definition unixToInternal : Z :=
  (1969 * 365 + 1969 / 4 - 1969 / 100 + 1969 / 400) * 86400.

(** [time.Unix(sec, nsec)]. *)
Definition Unix (s n : Z) : Time :=
  let '(s1, n1) :=
    if (n <? 0) || (1000000000 <=? n) then
      let q := Z.quot n 1000000000 in
      let s' := wrap64 (s + q) in
      let n' := n - q * 1000000000 in
      if n' <? 0 then (wrap64 (s' - 1), n' + 1000000000) else (s', n')
    else (s, n) in
  {| sec := wrap64 (s1 + unixToInternal); nsec := n1 |}.

(** [t.After(u)] for times without monotonic readings. *)
Definition After (t u : Time) : bool :=
  (sec u <? sec t) || ((sec t =? sec u) && (nsec u <? nsec t)).

(** The order of instants [After] decides: [t] is at or before [u]. *)
Definition AtOrBefore (t u : Time) : Prop :=
  sec t < sec u \/ (sec t = sec u /\ nsec t <= nsec u).

(** ** float64 and its conversion to int64 *)

Definition float64 := spec_float.

(** The value of a finite float is [float_num f / float_den f]. *)
Definition float_num (f : float64) : Z :=
  match f with
  | S754_finite s m e =>
      let a := Zpos m * 2 ^ Z.max e 0 in if s then - a else a
  | _ => 0
  end.

Definition float_den (f : float64) : Z :=
  match f with
  | S754_finite _ _ e => 2 ^ Z.max (- e) 0
  | _ => 1
  end.

(** The integer part of a float: the fraction is dropped, the sign kept.
    Infinities and NaN have none. *)
Definition float_trunc (f : float64) : option Z :=
  match f with
  | S754_zero _ => Some 0
  | S754_finite s m e =>
      let a := if 0 <=? e then Zpos m * 2 ^ e else Zpos m / 2 ^ (- e) in
      Some (if s then - a else a)
  | S754_infinity _ | S754_nan => None
  end.

(** The conversion [int64(f)] of a [float64].  Go truncates toward zero; the
    result for a value that [int64] cannot hold is left to the implementation
    by the language, here it is the one of amd64 (the "integer indefinite"
    value of CVTTSD2SQ). *)
Definition int64_of_float64 (f : float64) : Z :=
  match float_trunc f with
  | Some z => if (min_int64 <=? z) && (z <=? max_int64) then z else min_int64
  | None => min_int64
  end.

(** ** The data model (the type declarations of both source files) *)

Record AccessTokenResponse := mkAccessTokenResponse {
  AccessToken : string;
  ExpiresIn : Z;
  Scope : string;
  TokenType : string;
  Error : string;
  ErrorDesc : string
}.

Record Config := mkConfig {
  Username : string;
  Password : string;
  ClientID : string;
  ClientSecret : string;
  UserAgent : string;
  SkipCommentIDs : list string;
  SkipSubreddits : list string;
  Before : Time;
  MaxScore : Z;
  ReplacementComment : string;
  DryRun : bool
}.

Record Source := mkSource {
  Score : Z;
  CreatedUTC : float64;
  CanGild : bool;
  Date : Time
}.

(** The field [Source] of the Go struct is [Src] here, and the fields [After]
    and [Before] of [ResponseData] are [RespAfter] and [RespBefore]: [Source]
    names the record type, [After] the comparison of times and [Before] the
    cutoff of [Config]. *)
Record Comment := mkComment {
  ID : string;
  Body : string;
  Permalink : string;
  Subreddit : string;
  Src : Source
}.

Record Child := mkChild { ChildData : Comment }.

Record ResponseData := mkResponseData {
  Children : list Child;
  RespAfter : string;
  RespBefore : string
}.

Record Response := mkResponse { Data : ResponseData }.

(** ** Requests, messages and events *)

Inductive Auth :=
| NoAuth
| Basic (user pass : string)        (* req.SetBasicAuth *)
| Bearer (token : string).          (* "Authorization: Bearer " + token *)

(** An HTTP request as the programs build it: the form is the list of fields
    set on [url.Values]. *)
Record Request := mkRequest {
  method : string;
  url : string;
  auth : Auth;
  user_agent : string;
  form : list (string * string)
}.

(** The lines the programs print, one constructor per format string. *)
Inductive Msg :=
| MsgSkipIds                        (* Skipping due to `skip_comment_ids` ... *)
| MsgSubreddit (s : string)         (* Subreddit: %v *)
| MsgSkipSubreddits                 (* Skipping due to `skip_subreddits` ... *)
| MsgSkipBefore (t : Time)          (* Skipping due to `before` filter (%s) *)
| MsgSkipMaxScore (n : Z)           (* Skipping due to `max_score` filter *)
| MsgDryRunOrSkipped                (* dryrun set or item set to be skipped *)
| MsgDeleting                       (* Deleting... *)
| MsgFailedDelete                   (* Failed to delete comment: %v *)
| MsgEditing                        (* Editing... *)
| MsgFailedEdit                     (* Failed to edit comment: %v *)
| MsgFailedDecode                   (* Failed to decode response: %v *)
| MsgEdited                         (* Edited successfully. *)
| MsgFailedToEdit (keys : list string) (* Failed to edit: %v *)
| MsgFetching                       (* Fetching comments... *)
| MsgFailedCreateRequest            (* Failed to create request: %v *)
| MsgFailedFetch                    (* Failed to fetch comments: %v *)
| MsgSleeping                       (* Sleeping 15 seconds *)
| MsgNoToken.                       (* Failed to obtain access token: %v *)

Inductive Event :=
| Stdout (m : Msg)                  (* fmt.Print*, standard output *)
| Stderr (m : Msg)                  (* log.Print*, standard error *)
| Do (r : Request)                  (* client.Do(req): the request is sent *)
| Send (c : Comment)                (* out <- c *)
| Close                             (* close(out) *)
| Sleep (d : Z)                     (* time.Sleep(d) *)
| Exit (code : Z).                  (* os.Exit(code), as log.Fatalf does *)

(** ** The writer monad of events *)

Definition M (A : Type) : Type := (A * list Event)%type.

Definition ret {A} (a : A) : M A := (a, []).

Definition bind {A B} (m : M A) (k : A -> M B) : M B :=
  let (a, t) := m in let (b, t') := k a in (b, t ++ t').

Definition emit (e : Event) : M unit := (tt, [e]).

Definition value {A} (m : M A) : A := fst m.
Definition events {A} (m : M A) : list Event := snd m.

Notation "x <- m ;; k" := (bind m (fun x => k))
  (at level 61, m at next level, right associativity).
Notation "m ;;; k" := (bind m (fun _ => k))
  (at level 61, right associativity).

(** ** What both programs share word for word *)

(** [func (c *Comment) Created() time.Time] *)
Definition Created (c : Comment) : Time :=
  Unix (int64_of_float64 (CreatedUTC (Src c))) 0.

(** [func (c *Comment) Fullname() string] *)
Definition Fullname (c : Comment) : string := ("t1_" ++ ID c)%string.

(** ** The scripted platform

    What the outside world answers.  Each listing request of the stream
    producer takes the next [FetchReply]; the edit and the delete call made
    for the [n]-th comment of the stream (if they are made) get
    [edit_reply n] and [delete_reply n]. *)

Inductive FetchReply :=
| FetchBadRequest                   (* http.NewRequest returned an error *)
| FetchTransportError               (* client.Do returned an error *)
| FetchUndecodable (partial : Response)
                                    (* Decode(&res) returned an error, having
                                       filled [res] as far as [partial] *)
| FetchDecoded (res : Response).

Inductive EditReply :=
| EditTransportError
| EditUndecodable
| EditDecoded (keys : list string). (* the keys of the decoded JSON object *)

Inductive DeleteReply :=
| DeleteTransportError
| DeleteResponded.

Inductive TokenReply :=
| TokenTransportError
| TokenUnreadable                   (* reading the body failed *)
| TokenUndecodable
| TokenDecoded (res : AccessTokenResponse).

Record World := mkWorld {
  token_reply : TokenReply;
  listing : list FetchReply;
  edit_reply : nat -> EditReply;
  delete_reply : nat -> DeleteReply
}.

(** Go's [error] values, as far as the programs tell them apart. *)
Inductive error :=
| ErrTransport
| ErrRead
| ErrDecode
| ErrResponse (desc : string).

(** How a run ends: [main] returned or [os.Exit] was called, the runtime
    panicked, or [main] is still blocked on the channel when the script of
    listing replies is used up. *)
Inductive Outcome :=
| Exited (code : Z)
| Panicked
| Blocked.

(** The two goroutines of a run.  The order of events inside each goroutine
    is the program's; how the two sequences interleave is the scheduler's and
    is not modelled. *)
Record Run := mkRun {
  main_goroutine : list Event;
  list_goroutine : list Event;
  outcome : Outcome
}.

(** The requests of both programs (the same in both files). *)

Definition listing_uri (config : Config) (lastSeen : string) : string :=
  let queryParams :=
    if String.eqb lastSeen EmptyString then EmptyString
    else ("?after=" ++ lastSeen)%string in
  ("https://reddit.com/user/" ++ Username config ++ "/comments.json"
     ++ queryParams)%string.

Definition listing_request (config : Config) (lastSeen : string) : Request :=
  {| method := "GET"; url := listing_uri config lastSeen; auth := NoAuth;
     user_agent := UserAgent config; form := [] |}.

Definition edit_request (c : Comment) (accessToken : string)
    (config : Config) : Request :=
  {| method := "POST";
     url := "https://oauth.reddit.com/api/editusertext?raw_json=1";
     auth := Bearer accessToken; user_agent := UserAgent config;
     form := [("thing_id", Fullname c); ("text", ReplacementComment config)] |}.

Definition delete_request (c : Comment) (accessToken : string)
    (config : Config) : Request :=
  {| method := "POST"; url := "https://oauth.reddit.com/api/del";
     auth := Bearer accessToken; user_agent := UserAgent config;
     form := [("id", Fullname c)] |}.

Definition token_request (config : Config) : Request :=
  {| method := "POST"; url := "https://www.reddit.com/api/v1/access_token";
     auth := Basic (ClientID config) (ClientSecret config);
     user_agent := UserAgent config;
     form := [("grant_type", "password"); ("username", Username config);
              ("password", Password config)] |}.

(** [func List]: the body of the producer goroutine.  The two files differ
    only in the printing function ([fmt.Printf] or [log.Printf]), which is
    the parameter [say].  The deferred [close(out)] is the [Close] that ends
    every return path.  When the script of replies is used up the goroutine
    is left waiting and the trace stops. *)
Fixpoint listLoop (say : Msg -> Event) (config : Config) (lastSeen : string)
    (replies : list FetchReply) : list Event :=
  match replies with
  | [] => []
  | reply :: rest =>
      let req := listing_request config lastSeen in
      match reply with
      | FetchBadRequest => [say MsgFailedCreateRequest; Close]
      | FetchTransportError => [Do req; say MsgFailedFetch; Close]
      | FetchUndecodable _ => [Do req; say MsgFailedDecode; Close]
      | FetchDecoded res =>
          Do req
          :: map (fun child => Send (ChildData child)) (Children (Data res))
          ++ (if (Nat.eqb (List.length (Children (Data res))) 0)
                 || String.eqb (RespAfter (Data res)) EmptyString
              then [Close]
              else listLoop say config (RespAfter (Data res)) rest)
      end
  end.

Definition List_with (say : Msg -> Event) (config : Config)
    (replies : list FetchReply) : list Event :=
  say MsgFetching :: listLoop say config EmptyString replies.

(** What the consumer of the channel can see of a producer trace: the
    comments sent, in order, and whether the channel was closed.  The channel
    has element type [Comment]; nothing else travels on it. *)
Fixpoint received (tr : list Event) : list Comment :=
  match tr with
  | [] => []
  | Send c :: tr' => c :: received tr'
  | _ :: tr' => received tr'
  end.

Fixpoint closed (tr : list Event) : bool :=
  match tr with
  | [] => false
  | Close :: _ => true
  | _ :: tr' => closed tr'
  end.

(** What the platform can see of a trace: the requests sent and the pauses
    between them. *)
Inductive Action :=
| Call (r : Request)
| Wait (d : Z).

Fixpoint actions (tr : list Event) : list Action :=
  match tr with
  | [] => []
  | Do r :: tr' => Call r :: actions tr'
  | Sleep d :: tr' => Wait d :: actions tr'
  | _ :: tr' => actions tr'
  end.

Fixpoint calls (l : list Action) : list Request :=
  match l with
  | [] => []
  | Call r :: l' => r :: calls l'
  | Wait _ :: l' => calls l'
  end.

Fixpoint waits (l : list Action) : list Z :=
  match l with
  | [] => []
  | Call _ :: l' => waits l'
  | Wait d :: l' => d :: waits l'
  end.

(** The requests sent in a trace, the mutating ones among them (the calls
    of the edit and of the delete endpoint), and the pauses. *)
Definition requests (tr : list Event) : list Request := calls (actions tr).

Definition is_mutating (r : Request) : bool := String.eqb (method r) "POST"
  && (String.eqb (url r) "https://oauth.reddit.com/api/editusertext?raw_json=1"
      || String.eqb (url r) "https://oauth.reddit.com/api/del").

Definition mutating_calls (tr : list Event) : list Request :=
  filter is_mutating (requests tr).

Definition sleeps (tr : list Event) : list Z := waits (actions tr).

(** ** [src/main.go] *)
Module MainGo.

Fixpoint rangeSkipCommentIDs (ids : list string) (c : Comment) : M bool :=
  match ids with
  | [] => ret false
  | id :: rest =>
      if String.eqb id (ID c)
      then emit (Stdout MsgSkipIds) ;;; ret true
      else rangeSkipCommentIDs rest c
  end.

Fixpoint rangeSkipSubreddits (subs : list string) (c : Comment) : M bool :=
  match subs with
  | [] => ret false
  | subreddit :: rest =>
      emit (Stdout (MsgSubreddit subreddit)) ;;;
      if String.eqb subreddit (Subreddit c)
      then emit (Stdout MsgSkipSubreddits) ;;; ret true
      else rangeSkipSubreddits rest c
  end.

(** [func (c *Comment) ShouldSkip(config *Config) bool]; each [range] loop
    is a function that tells whether it returned [true] from [ShouldSkip]. *)
Definition ShouldSkip (c : Comment) (config : Config) : M bool :=
  byId <- rangeSkipCommentIDs (SkipCommentIDs config) c ;;
  if byId then ret true else
  bySub <- rangeSkipSubreddits (SkipSubreddits config) c ;;
  if bySub then ret true else
  if After (Created c) (Before config)
  then emit (Stdout (MsgSkipBefore (Before config))) ;;; ret true
  else if MaxScore config <? Score (Src c)
  then emit (Stdout (MsgSkipMaxScore (MaxScore config))) ;;; ret true
  else ret false.

(** [func (c *Comment) Delete].  [http.NewRequest] cannot fail on the
    constant method and URL, so its error branch is not reachable and has no
    counterpart here. *)
Definition Delete (c : Comment) (accessToken : string) (config : Config)
    (reply : DeleteReply) : M unit :=
  skip <- ShouldSkip c config ;;
  if skip || DryRun config
  then emit (Stdout MsgDryRunOrSkipped)
  else
    emit (Stdout MsgDeleting) ;;;
    emit (Do (delete_request c accessToken config)) ;;;
    match reply with
    | DeleteTransportError => emit (Stdout MsgFailedDelete)
    | DeleteResponded => ret tt
    end.

(** [func (c *Comment) Edit] *)
Definition Edit (c : Comment) (accessToken : string) (config : Config)
    (reply : EditReply) : M unit :=
  skip <- ShouldSkip c config ;;
  if skip || DryRun config
  then ret tt
  else
    emit (Stdout MsgEditing) ;;;
    emit (Do (edit_request c accessToken config)) ;;;
    match reply with
    | EditTransportError => emit (Stdout MsgFailedEdit)
    | EditUndecodable => emit (Stdout MsgFailedDecode)
    | EditDecoded res =>
        if existsb (String.eqb "jquery") res
        then emit (Stdout MsgEdited)
        else emit (Stdout (MsgFailedToEdit res))
    end.

Definition List := List_with Stdout.

(** [func newAccessToken(config *Config) (string, error)] *)
Definition newAccessToken (config : Config) (reply : TokenReply)
    : M (string * option error) :=
  emit (Do (token_request config)) ;;;
  match reply with
  | TokenTransportError => ret (EmptyString, Some ErrTransport)
  | TokenUnreadable => ret (EmptyString, Some ErrRead)
  | TokenUndecodable => ret (EmptyString, Some ErrDecode)
  | TokenDecoded res =>
      if negb (String.eqb (Error res) EmptyString)
      then ret (EmptyString, Some (ErrResponse (ErrorDesc res)))
      else ret (AccessToken res, None)
  end.

(** The body of [for comment := range List(client, config)], over the
    comments received, the [n]-th comment of the stream first.  The sleep of
    the loop body is commented out in this file. *)
Fixpoint rangeList (w : World) (accessToken : string) (config : Config)
    (n : nat) (comments : list Comment) : M unit :=
  match comments with
  | [] => ret tt
  | comment :: rest =>
      Edit comment accessToken config (edit_reply w n) ;;;
      Delete comment accessToken config (delete_reply w n) ;;;
      rangeList w accessToken config (S n) rest
  end.

(** [func main].  [loaded] is what [configLoader("config.json")] returned:
    [None] for [(nil, err)].  Both [fmt.Errorf] calls only build an error
    value that is dropped, so neither failure stops [main]; with a nil
    [config] the first field access of [newAccessToken] panics. *)
Definition main (loaded : option Config) (w : World) : Run :=
  match loaded with
  | None =>
      {| main_goroutine := []; list_goroutine := []; outcome := Panicked |}
  | Some config =>
      let '((accessToken, _), t1) := newAccessToken config (token_reply w) in
      let producer := List config (listing w) in
      let '(_, t2) :=
        rangeList w accessToken config 0 (received producer) in
      {| main_goroutine := t1 ++ t2;
         list_goroutine := producer;
         outcome := if closed producer then Exited 0 else Blocked |}
  end.

End MainGo.

(** ** [src/unnamed/part_000], the program configured from the environment *)
Module Part000.

Fixpoint rangeSkipCommentIDs (ids : list string) (c : Comment) : M bool :=
  match ids with
  | [] => ret false
  | id :: rest =>
      if String.eqb id (ID c)
      then emit (Stderr MsgSkipIds) ;;; ret true
      else rangeSkipCommentIDs rest c
  end.

Fixpoint rangeSkipSubreddits (subs : list string) (c : Comment) : M bool :=
  match subs with
  | [] => ret false
  | subreddit :: rest =>
      if String.eqb subreddit (Subreddit c)
      then emit (Stderr MsgSkipSubreddits) ;;; ret true
      else rangeSkipSubreddits rest c
  end.

(** [func (c *Comment) ShouldSkip(config *Config) bool] *)
Definition ShouldSkip (c : Comment) (config : Config) : M bool :=
  byId <- rangeSkipCommentIDs (SkipCommentIDs config) c ;;
  if byId then ret true else
  bySub <- rangeSkipSubreddits (SkipSubreddits config) c ;;
  if bySub then ret true else
  if After (Created c) (Before config)
  then emit (Stderr (MsgSkipBefore (Before config))) ;;; ret true
  else if MaxScore config <? Score (Src c)
  then emit (Stderr (MsgSkipMaxScore (MaxScore config))) ;;; ret true
  else ret false.

(** [func (c *Comment) Delete]; as in [MainGo], the error branch of
    [http.NewRequest] is not reachable. *)
Definition Delete (c : Comment) (accessToken : string) (config : Config)
    (reply : DeleteReply) : M unit :=
  emit (Stderr MsgDeleting) ;;;
  skip <- ShouldSkip c config ;;
  if skip || DryRun config
  then ret tt
  else
    emit (Do (delete_request c accessToken config)) ;;;
    match reply with
    | DeleteTransportError => emit (Stderr MsgFailedDelete)
    | DeleteResponded => ret tt
    end.

(** [func (c *Comment) Edit] *)
Definition Edit (c : Comment) (accessToken : string) (config : Config)
    (reply : EditReply) : M unit :=
  emit (Stderr MsgEditing) ;;;
  skip <- ShouldSkip c config ;;
  if skip || DryRun config
  then ret tt
  else
    emit (Do (edit_request c accessToken config)) ;;;
    match reply with
    | EditTransportError => emit (Stderr MsgFailedEdit)
    | EditUndecodable => emit (Stderr MsgFailedDecode)
    | EditDecoded res =>
        if existsb (String.eqb "jquery") res
        then emit (Stderr MsgEdited)
        else emit (Stderr (MsgFailedToEdit res))
    end.

Definition List := List_with Stderr.

(** [func newAccessToken(config *Config) (string, error)]; the body is
    decoded as it is read, so a failed read is the decoder's error. *)
Definition newAccessToken (config : Config) (reply : TokenReply)
    : M (string * option error) :=
  emit (Do (token_request config)) ;;;
  match reply with
  | TokenTransportError => ret (EmptyString, Some ErrTransport)
  | TokenUnreadable => ret (EmptyString, Some ErrRead)
  | TokenUndecodable => ret (EmptyString, Some ErrDecode)
  | TokenDecoded res =>
      if negb (String.eqb (Error res) EmptyString)
      then ret (EmptyString, Some (ErrResponse (ErrorDesc res)))
      else ret (AccessToken res, None)
  end.

(** The body of [for comment := range List(client, config)]. *)
Fixpoint rangeList (w : World) (accessToken : string) (config : Config)
    (n : nat) (comments : list Comment) : M unit :=
  match comments with
  | [] => ret tt
  | comment :: rest =>
      Edit comment accessToken config (edit_reply w n) ;;;
      Delete comment accessToken config (delete_reply w n) ;;;
      emit (Stdout MsgSleeping) ;;;
      emit (Sleep (15 * Second)) ;;;
      rangeList w accessToken config (S n) rest
  end.

(** [func main].  The composite literal that builds [config] from the
    environment is configuration loading (and, as written, is not accepted by
    the Go compiler); its value is the parameter [config].  [log.Fatalf]
    prints and calls [os.Exit(1)]. *)
Definition main (config : Config) (w : World) : Run :=
  let '((accessToken, err), t1) := newAccessToken config (token_reply w) in
  match err with
  | Some _ =>
      {| main_goroutine := t1 ++ [Stderr MsgNoToken; Exit 1];
         list_goroutine := [];
         outcome := Exited 1 |}
  | None =>
      let producer := List config (listing w) in
      let '(_, t2) :=
        rangeList w accessToken config 0 (received producer) in
      {| main_goroutine := t1 ++ t2;
         list_goroutine := producer;
         outcome := if closed producer then Exited 0 else Blocked |}
  end.

End Part000.

(** ** The retention filter as the specification words it *)

Inductive Disposition :=
| Keep
| SkipById
| SkipBySubcommunity
| SkipByDate
| SkipByScore.

Definition mem (x : string) (l : list string) : bool :=
  existsb (String.eqb x) l.

(** [decide(comment, policy)]: the four checks in the order of the
    specification, the first match wins. *)
Definition decide (c : Comment) (p : Config) : Disposition :=
  if mem (ID c) (SkipCommentIDs p) then SkipById
  else if mem (Subreddit c) (SkipSubreddits p) then SkipBySubcommunity
  else if After (Created c) (Before p) then SkipByDate
  else if MaxScore p <? Score (Src c) then SkipByScore
  else Keep.

Definition is_keep (d : Disposition) : bool :=
  match d with Keep => true | _ => false end.

(** The skip reason a printed line stands for, and the reasons a trace
    shows. *)
Definition reason_of (m : Msg) : option Disposition :=
  match m with
  | MsgSkipIds => Some SkipById
  | MsgSkipSubreddits => Some SkipBySubcommunity
  | MsgSkipBefore _ => Some SkipByDate
  | MsgSkipMaxScore _ => Some SkipByScore
  | _ => None
  end.

Fixpoint reasons (tr : list Event) : list Disposition :=
  match tr with
  | [] => []
  | Stdout m :: tr' | Stderr m :: tr' =>
      match reason_of m with
      | Some d => d :: reasons tr'
      | None => reasons tr'
      end
  | _ :: tr' => reasons tr'
  end.

(** The disposition a call of [ShouldSkip] shows to an observer: the value
    it returned and the one reason it printed. *)
Definition shown (r : M bool) : option Disposition :=
  match value r, reasons (events r) with
  | false, [] => Some Keep
  | true, [d] => Some d
  | _, _ => None
  end.

(** ** Vocabulary of the statements *)

(** A comment goes through the edit-then-delete workflow when the filter
    keeps it and the run is not a dry run. *)
Definition kept (c : Comment) (p : Config) : bool :=
  is_keep (decide c p) && negb (DryRun p).

(** What the platform sees of the workflow of one comment, without and with
    the pause of the loop body. *)
Definition workflow (accessToken : string) (p : Config) (c : Comment)
    : list Action :=
  if kept c p
  then [Call (edit_request c accessToken p);
        Call (delete_request c accessToken p)]
  else [].

Definition paced_workflow (accessToken : string) (p : Config) (c : Comment)
    : list Action :=
  workflow accessToken p c ++ [Wait (15 * Second)].

Definition page_comments (res : Response) : list Comment :=
  map ChildData (Children (Data res)).

(** A page after which the producer stops: no comment, or no cursor. *)
Definition terminal (res : Response) : bool :=
  Nat.eqb (List.length (Children (Data res))) 0
  || String.eqb (RespAfter (Data res)) EmptyString.

(** A fetch that fails: the transport, or the decoding of the body. *)
Definition failed_fetch (r : FetchReply) : bool :=
  match r with
  | FetchTransportError | FetchUndecodable _ => true
  | FetchBadRequest | FetchDecoded _ => false
  end.

(** The events of a run of pages, the first of them requested with
    [cursor], each next one with the cursor the page before returned. *)
Fixpoint page_events (p : Config) (cursor : string) (pages : list Response)
    : list Event :=
  match pages with
  | [] => []
  | res :: more =>
      Do (listing_request p cursor)
      :: map Send (page_comments res)
      ++ page_events p (RespAfter (Data res)) more
  end.

Fixpoint cursors (cursor : string) (pages : list Response) : list string :=
  match pages with
  | [] => []
  | res :: more => cursor :: cursors (RespAfter (Data res)) more
  end.

Fixpoint next_cursor (cursor : string) (pages : list Response) : string :=
  match pages with
  | [] => cursor
  | res :: more => next_cursor (RespAfter (Data res)) more
  end.



(** The line the producer prints for a failed fetch. *)
Definition failure_line (r : FetchReply) : Msg :=
  match r with
  | FetchUndecodable _ => MsgFailedDecode
  | _ => MsgFailedFetch
  end.

(** The token a reply of the token endpoint carries: none when the
    exchange failed in transport, could not be read or decoded, or came back
    with a non-empty [error] field. *)
Definition token_of (r : TokenReply) : option string :=
  match r with
  | TokenDecoded res =>
      if String.eqb (Error res) EmptyString then Some (AccessToken res)
      else None
  | _ => None
  end.

(** ** Sample data *)

Definition epoch : Time := Unix 0 0.

Definition sample_config : Config :=
  {| Username := "snoo"; Password := "foobar"; ClientID := "123";
     ClientSecret := "456"; UserAgent := "ShredditGoClient";
     SkipCommentIDs := ["keepme"]; SkipSubreddits := ["mod_only"];
     Before := Unix 1400000000 0; MaxScore := 5;
     ReplacementComment := EmptyString; DryRun := false |}.

Definition dry_config : Config :=
  {| Username := "snoo"; Password := "foobar"; ClientID := "123";
     ClientSecret := "456"; UserAgent := "ShredditGoClient";
     SkipCommentIDs := ["keepme"]; SkipSubreddits := ["mod_only"];
     Before := Unix 1400000000 0; MaxScore := 5;
     ReplacementComment := EmptyString; DryRun := true |}.

(** The cutoff at the very second [comment_a] was created, and one second
    before. *)
Definition boundary_config : Config :=
  {| Username := "snoo"; Password := "foobar"; ClientID := "123";
     ClientSecret := "456"; UserAgent := "ShredditGoClient";
     SkipCommentIDs := ["keepme"]; SkipSubreddits := ["mod_only"];
     Before := Unix 1300000000 0; MaxScore := 5;
     ReplacementComment := EmptyString; DryRun := false |}.

Definition earlier_config : Config :=
  {| Username := "snoo"; Password := "foobar"; ClientID := "123";
     ClientSecret := "456"; UserAgent := "ShredditGoClient";
     SkipCommentIDs := ["keepme"]; SkipSubreddits := ["mod_only"];
     Before := Unix 1299999999 0; MaxScore := 5;
     ReplacementComment := EmptyString; DryRun := false |}.

(** 1300000000.75 and 1300000000.25 as binary fractions. *)
Definition stamp_a : float64 := S754_finite false 5200000003 (-2).
Definition stamp_b : float64 := S754_finite false 5200000001 (-2).

Definition comment_a : Comment :=
  {| ID := "a1"; Body := "first"; Permalink := "/r/x/a1"; Subreddit := "x";
     Src := {| Score := 1; CreatedUTC := stamp_a; CanGild := false;
               Date := epoch |} |}.

Definition comment_b : Comment :=
  {| ID := "b2"; Body := "second"; Permalink := "/r/x/b2"; Subreddit := "x";
     Src := {| Score := 1; CreatedUTC := stamp_b; CanGild := false;
               Date := epoch |} |}.

Definition page_one : Response :=
  {| Data := {| Children := [mkChild comment_a; mkChild comment_b];
                RespAfter := "X"; RespBefore := EmptyString |} |}.

Definition page_two : Response :=
  {| Data := {| Children := []; RespAfter := EmptyString;
                RespBefore := EmptyString |} |}.

Definition token_ok : TokenReply :=
  TokenDecoded {| AccessToken := "tok"; ExpiresIn := 3600; Scope := "*";
                  TokenType := "bearer"; Error := EmptyString;
                  ErrorDesc := EmptyString |}.

(** Every edit answers without the success marker, every delete fails in
    transport. *)
Definition failing_edit (_ : nat) : EditReply := EditDecoded ["json"].
Definition failing_delete (_ : nat) : DeleteReply := DeleteTransportError.

Definition good_edit (_ : nat) : EditReply := EditDecoded ["jquery"].
Definition good_delete (_ : nat) : DeleteReply := DeleteResponded.

Definition world_two_pages : World :=
  {| token_reply := token_ok;
     listing := [FetchDecoded page_one; FetchDecoded page_two];
     edit_reply := good_edit; delete_reply := good_delete |}.

Definition world_failed_fetch : World :=
  {| token_reply := token_ok; listing := [FetchTransportError];
     edit_reply := good_edit; delete_reply := good_delete |}.

Definition world_exhausted : World :=
  {| token_reply := token_ok; listing := [FetchDecoded page_two];
     edit_reply := good_edit; delete_reply := good_delete |}.

(** The second body decodes as far as a full page and then fails. *)
Definition world_undecodable : World :=
  {| token_reply := token_ok;
     listing := [FetchDecoded page_one; FetchUndecodable page_one];
     edit_reply := good_edit; delete_reply := good_delete |}.

(** The first comment's edit comes back without the success marker and its
    delete fails in transport. *)
Definition world_failing_mutations : World :=
  {| token_reply := token_ok;
     listing := [FetchDecoded page_one; FetchDecoded page_two];
     edit_reply := failing_edit; delete_reply := failing_delete |}.

Definition world_no_token : World :=
  {| token_reply := TokenTransportError;
     listing := [FetchDecoded page_one; FetchDecoded page_two];
     edit_reply := good_edit; delete_reply := good_delete |}.

(** ** Configuration loading ([src/main.go])

    The process environment, the clock and the two functions of package
    [time] that the loaders call.  [lookup_env] is [os.LookupEnv];
    [AddDate] and [ParseRFC3339] stand for [Time.AddDate] and
    [time.Parse(time.RFC3339, _)], which are taken as given.  A file is what
    opening, reading and decoding it gives. *)

Record Host := mkHost {
  lookup_env : string -> option string;
  now : Time;
  AddDate : Time -> Z -> Z -> Z -> Time;
  ParseRFC3339 : string -> option Time
}.

(** [os.Getenv]: the empty string for a variable that is not set. *)
Definition Getenv (h : Host) (key : string) : string :=
  match lookup_env h key with
  | Some v => v
  | None => EmptyString
  end.

Inductive FileReply (A : Type) :=
| FileOpenError                     (* os.Open returned an error *)
| FileReadError                     (* reading the file failed *)
| FileUndecodable                   (* the JSON decoder returned an error *)
| FileDecoded (a : A).

Arguments FileOpenError {A}.
Arguments FileReadError {A}.
Arguments FileUndecodable {A}.
Arguments FileDecoded {A} a.

(** [type RawConfig]; the fields carry the prefix [Raw] because [Config]
    has the plain names. *)
Record RawConfig := mkRawConfig {
  RawUsername : string;
  RawPassword : string;
  RawClientID : string;
  RawClientSecret : string;
  RawUserAgent : string;
  RawSkipCommentIDs : list string;
  RawSkipSubreddits : list string;
  RawBefore : string;
  RawMaxScore : Z;
  RawReplacementComment : string;
  RawDryRun : bool
}.

(** The errors of the two loaders, one per [return nil, ...]. *)
Inductive ConfigError :=
| ErrOpenConfig                     (* failed to open config file *)
| ErrReadConfig                     (* ioutil.ReadAll failed *)
| ErrDecodeConfig                   (* failed to decode config file *)
| ErrParseBefore                    (* failed to parse 'Before' date *)
| ErrUnmarshalConfig                (* Failed to unmarshal config into struct *)
| ErrNoPassword                     (* Reddit password not set *)
| ErrNoClientSecret                 (* Reddit Client Secret not set *)
| ErrYearsBack.                     (* the error of strconv.Atoi *)

(** The lines [LoadConfig] prints. *)
Inductive ConfigMsg :=
| MsgFailedOpenConfig               (* Failed to open config file: %v *)
| MsgFailedReadConfig               (* Failed to read config file: %v *)
| MsgInvalidYearsBack.              (* Invalid value for REDDIT_YEARS_BACK *)

(** [func getEnvOrDefault(envVar, defaultValue string) string] *)
Definition getEnvOrDefault (h : Host) (envVar defaultValue : string)
    : string :=
  match lookup_env h envVar with
  | Some value => value
  | None => defaultValue
  end.

(** [func configLoader(filePath string)], returning a [Config] or an
    error.  The decoder reads the file itself, so a failed read is a failed
    decode. *)
Definition configLoader (h : Host) (fs : string -> FileReply RawConfig)
    (filePath : string) : ConfigError + Config :=
  match fs filePath with
  | FileOpenError => inl ErrOpenConfig
  | FileReadError | FileUndecodable => inl ErrDecodeConfig
  | FileDecoded rawConfig =>
      match ParseRFC3339 h (RawBefore rawConfig) with
      | None => inl ErrParseBefore
      | Some before =>
          inr {| Username := RawUsername rawConfig;
                 Password :=
                   getEnvOrDefault h "REDDIT_PASSWORD" (RawPassword rawConfig);
                 ClientID := RawClientID rawConfig;
                 ClientSecret :=
                   getEnvOrDefault h "REDDIT_CLIENT_SECRET"
                     (RawClientSecret rawConfig);
                 UserAgent := RawUserAgent rawConfig;
                 SkipCommentIDs := RawSkipCommentIDs rawConfig;
                 SkipSubreddits := RawSkipSubreddits rawConfig;
                 Before := before;
                 MaxScore := RawMaxScore rawConfig;
                 ReplacementComment := RawReplacementComment rawConfig;
                 DryRun := RawDryRun rawConfig |}
      end
  end.

(** [strconv.Atoi] where [int] has 64 bits: an optional sign, then one or
    more decimal digits, the value within [int]; anything else is an
    error. *)
Definition digit_of (a : Ascii.ascii) : option Z :=
  let n := Z.of_N (Ascii.N_of_ascii a) in
  if (48 <=? n) && (n <=? 57) then Some (n - 48) else None.

Fixpoint digits_value (s : string) (acc : Z) : option Z :=
  match s with
  | EmptyString => Some acc
  | String a rest =>
      match digit_of a with
      | Some d => digits_value rest (acc * 10 + d)
      | None => None
      end
  end.

Definition Atoi (s : string) : option Z :=
  match s with
  | EmptyString => None
  | String a rest =>
      let neg := Ascii.eqb a "-"%char in
      let body := if neg || Ascii.eqb a "+"%char then rest else s in
      match body with
      | EmptyString => None
      | _ =>
          match digits_value body 0 with
          | Some n =>
              let v := if neg then - n else n in
              if (min_int64 <=? v) && (v <=? max_int64) then Some v else None
          | None => None
          end
      end
  end.

(** [func LoadConfig(filename string)], returning a [Config] or an error,
    with the lines it prints.  The file decodes straight into a [Config]. *)
Definition LoadConfig (h : Host) (fs : string -> FileReply Config)
    (filename : string) : (ConfigError + Config) * list ConfigMsg :=
  match fs filename with
  | FileOpenError => (inl ErrOpenConfig, [MsgFailedOpenConfig])
  | FileReadError => (inl ErrReadConfig, [MsgFailedReadConfig])
  | FileUndecodable => (inl ErrUnmarshalConfig, [])
  | FileDecoded config =>
      let password := Getenv h "REDDIT_PASSWORD" in
      if String.eqb password EmptyString then (inl ErrNoPassword, []) else
      let clientSecret := Getenv h "REDDIT_CLIENT_SECRET" in
      if String.eqb clientSecret EmptyString
      then (inl ErrNoClientSecret, []) else
      let yearsBackStr := Getenv h "REDDIT_YEARS_BACK" in
      let loaded (yearsBack : Z) : Config :=
        {| Username := Username config;
           Password := password;
           ClientID := ClientID config;
           ClientSecret := clientSecret;
           UserAgent := UserAgent config;
           SkipCommentIDs := SkipCommentIDs config;
           SkipSubreddits := SkipSubreddits config;
           Before := AddDate h (now h) (wrap64 (- yearsBack)) 0 0;
           MaxScore := MaxScore config;
           ReplacementComment := ReplacementComment config;
           DryRun := String.eqb (Getenv h "REDDIT_DRY_RUN") "true" |} in
      match Atoi yearsBackStr with
      | Some yearsBack => (inr (loaded yearsBack), [])
      | None =>
          if negb (String.eqb yearsBackStr EmptyString)
          then (inl ErrYearsBack, [MsgInvalidYearsBack])
          else (inr (loaded 11), [])
      end
  end.

(** The first lines of [func main] of [src/main.go] with the rest of it:
    [config] is what [configLoader("config.json")] returned, [nil] when it
    returned an error. *)
Definition MainGo_run (h : Host) (fs : string -> FileReply RawConfig)
    (w : World) : Run :=
  MainGo.main
    (match configLoader h fs "config.json" with
     | inr config => Some config
     | inl _ => None
     end) w.

(** ** Further vocabulary *)

(** A reply after which the producer asks for another page. *)
Definition continuing (r : FetchReply) : bool :=
  match r with
  | FetchDecoded res => negb (terminal res)
  | _ => false
  end.

(** What a trace holds after its first [Close]. *)
Fixpoint after_close (tr : list Event) : list Event :=
  match tr with
  | [] => []
  | Close :: tr' => tr'
  | _ :: tr' => after_close tr'
  end.

(** The lines of a trace, of either output. *)
Fixpoint printed (tr : list Event) : list Msg :=
  match tr with
  | [] => []
  | Stdout m :: tr' | Stderr m :: tr' => m :: printed tr'
  | _ :: tr' => printed tr'
  end.

(** The lines of the filter. *)
Definition filter_line (m : Msg) : bool :=
  match m with
  | MsgSkipIds | MsgSubreddit _ | MsgSkipSubreddits | MsgSkipBefore _
  | MsgSkipMaxScore _ => true
  | _ => false
  end.


(** The reasons one comment adds to the output of the loop of [main]. *)
Definition reasons_of_comment (p : Config) (c : Comment)
    : list Disposition :=
  if is_keep (decide c p) then [] else [decide c p; decide c p].




(** More sample data. *)

Definition comment_hot : Comment :=
  {| ID := "h3"; Body := "third"; Permalink := "/r/x/h3"; Subreddit := "x";
     Src := {| Score := 9; CreatedUTC := stamp_a; CanGild := false;
               Date := epoch |} |}.

Definition stricter_config : Config :=
  {| Username := "snoo"; Password := "foobar"; ClientID := "123";
     ClientSecret := "456"; UserAgent := "ShredditGoClient";
     SkipCommentIDs := ["keepme"; "h3"];
     SkipSubreddits := ["mod_only"; "x"];
     Before := Unix 1299999999 0; MaxScore := 0;
     ReplacementComment := EmptyString; DryRun := false |}.

Definition sample_raw : RawConfig :=
  {| RawUsername := "snoo"; RawPassword := "from_file"; RawClientID := "123";
     RawClientSecret := "secret_from_file";
     RawUserAgent := "ShredditGoClient"; RawSkipCommentIDs := ["keepme"];
     RawSkipSubreddits := ["mod_only"]; RawBefore := "2014-05-13T16:53:20Z";
     RawMaxScore := 5; RawReplacementComment := EmptyString;
     RawDryRun := false |}.

Definition env_of (l : list (string * string)) (key : string)
    : option string :=
  match find (fun kv => String.eqb (fst kv) key) l with
  | Some kv => Some (snd kv)
  | None => None
  end.

(** A host whose clock stands at second 1700000000, whose [AddDate] moves
    by years of 365 days and whose parser knows one date. *)
Definition host_with (vars : list (string * string)) : Host :=
  {| lookup_env := env_of vars;
     now := Unix 1700000000 0;
     AddDate := fun t y _ _ =>
       {| sec := sec t + y * 31536000; nsec := nsec t |};
     ParseRFC3339 := fun s =>
       if String.eqb s "2014-05-13T16:53:20Z"
       then Some (Unix 1400000000 0) else None |}.

Definition no_file {A} (_ : string) : FileReply A := FileOpenError.

Definition raw_file (name : string) : FileReply RawConfig :=
  if String.eqb name "config.json" then FileDecoded sample_raw
  else FileOpenError.

Definition config_file (name : string) : FileReply Config :=
  if String.eqb name "config.json" then FileDecoded sample_config
  else FileOpenError.

(** * Proofs *)

Ltac run_writer :=
  unfold bind, ret, emit, value, events in *; simpl in *.

Lemma mem_In (x : string) (l : list string) : mem x l = true <-> In x l.
Proof.
  unfold mem. rewrite existsb_exists. split.
  - intros [y [Hy Heq]]. apply String.eqb_eq in Heq. now subst.
  - intros H. exists x. split; [assumption | apply String.eqb_refl].
Qed.

Lemma mem_not_In (x : string) (l : list string) : mem x l = false <-> ~ In x l.
Proof.
  rewrite <- mem_In. destruct (mem x l); split; congruence.
Qed.

Lemma mem_cons (x y : string) (l : list string) :
  mem x (y :: l) = String.eqb y x || mem x l.
Proof. unfold mem. simpl. now rewrite String.eqb_sym. Qed.

Lemma reasons_app (t u : list Event) :
  reasons (t ++ u) = reasons t ++ reasons u.
Proof.
  induction t as [| e t IH]; simpl; [reflexivity |].
  destruct e; simpl; try assumption;
    destruct (reason_of m); simpl; now rewrite IH.
Qed.

Lemma actions_app (t u : list Event) :
  actions (t ++ u) = actions t ++ actions u.
Proof.
  induction t as [| e t IH]; simpl; [reflexivity |].
  destruct e; simpl; now rewrite ?IH.
Qed.

Lemma calls_app (l k : list Action) : calls (l ++ k) = calls l ++ calls k.
Proof.
  induction l as [| a l IH]; simpl; [reflexivity |].
  destruct a; simpl; now rewrite IH.
Qed.

Lemma waits_app (l k : list Action) : waits (l ++ k) = waits l ++ waits k.
Proof.
  induction l as [| a l IH]; simpl; [reflexivity |].
  destruct a; simpl; now rewrite IH.
Qed.

Lemma received_app (t u : list Event) :
  received (t ++ u) = received t ++ received u.
Proof.
  induction t as [| e t IH]; simpl; [reflexivity |].
  destruct e; simpl; now rewrite ?IH.
Qed.

Lemma closed_app (t u : list Event) : closed (t ++ u) = closed t || closed u.
Proof.
  induction t as [| e t IH]; simpl; [reflexivity |].
  destruct e; simpl; now rewrite ?IH.
Qed.

(** ** The loops of [ShouldSkip] *)

Lemma MainGo_rangeSkipCommentIDs (ids : list string) (c : Comment) :
  MainGo.rangeSkipCommentIDs ids c
  = (mem (ID c) ids, if mem (ID c) ids then [Stdout MsgSkipIds] else []).
Proof.
  induction ids as [| id rest IH]; [reflexivity |].
  rewrite mem_cons. simpl.
  destruct (String.eqb id (ID c)); simpl; [reflexivity |].
  exact IH.
Qed.

Lemma Part000_rangeSkipCommentIDs (ids : list string) (c : Comment) :
  Part000.rangeSkipCommentIDs ids c
  = (mem (ID c) ids, if mem (ID c) ids then [Stderr MsgSkipIds] else []).
Proof.
  induction ids as [| id rest IH]; [reflexivity |].
  rewrite mem_cons. simpl.
  destruct (String.eqb id (ID c)); simpl; [reflexivity |].
  exact IH.
Qed.

Lemma MainGo_rangeSkipSubreddits (subs : list string) (c : Comment) :
  value (MainGo.rangeSkipSubreddits subs c) = mem (Subreddit c) subs
  /\ reasons (events (MainGo.rangeSkipSubreddits subs c))
     = (if mem (Subreddit c) subs then [SkipBySubcommunity] else [])
  /\ actions (events (MainGo.rangeSkipSubreddits subs c)) = [].
Proof.
  induction subs as [| s rest IH]; [now repeat split |].
  rewrite mem_cons. run_writer.
  destruct (String.eqb s (Subreddit c)); simpl; [now repeat split |].
  destruct (MainGo.rangeSkipSubreddits rest c) as [b t]. simpl in *.
  exact IH.
Qed.

Lemma Part000_rangeSkipSubreddits (subs : list string) (c : Comment) :
  Part000.rangeSkipSubreddits subs c
  = (mem (Subreddit c) subs,
     if mem (Subreddit c) subs then [Stderr MsgSkipSubreddits] else []).
Proof.
  induction subs as [| s rest IH]; [reflexivity |].
  rewrite mem_cons. simpl. destruct (String.eqb s (Subreddit c)); simpl;
    [reflexivity | exact IH].
Qed.

(** [ShouldSkip] only prints: whatever it returns, it sends no request and
    never sleeps; it returns [true] exactly when [decide] is not [Keep], and
    the one reason it prints is the one of [decide]. *)
Lemma MainGo_ShouldSkip_spec (c : Comment) (p : Config) :
  value (MainGo.ShouldSkip c p) = negb (is_keep (decide c p))
  /\ reasons (events (MainGo.ShouldSkip c p))
     = (if is_keep (decide c p) then [] else [decide c p])
  /\ actions (events (MainGo.ShouldSkip c p)) = [].
Proof.
  unfold MainGo.ShouldSkip, decide.
  rewrite MainGo_rangeSkipCommentIDs.
  destruct (MainGo_rangeSkipSubreddits (SkipSubreddits p) c)
    as (Hv & Hr & Hq).
  destruct (MainGo.rangeSkipSubreddits (SkipSubreddits p) c) as [b t].
  run_writer. subst b.
  destruct (mem (ID c) (SkipCommentIDs p)); simpl; [now repeat split |].
  destruct (mem (Subreddit c) (SkipSubreddits p)); simpl.
  - rewrite app_nil_r. now repeat split.
  - destruct (After (Created c) (Before p)); simpl.
    + rewrite reasons_app, actions_app, Hr, Hq. now repeat split.
    + destruct (MaxScore p <? Score (Src c)); simpl.
      * rewrite reasons_app, actions_app, Hr, Hq. now repeat split.
      * rewrite app_nil_r. now repeat split.
Qed.

Lemma Part000_ShouldSkip_spec (c : Comment) (p : Config) :
  value (Part000.ShouldSkip c p) = negb (is_keep (decide c p))
  /\ reasons (events (Part000.ShouldSkip c p))
     = (if is_keep (decide c p) then [] else [decide c p])
  /\ actions (events (Part000.ShouldSkip c p)) = [].
Proof.
  unfold Part000.ShouldSkip, decide.
  rewrite Part000_rangeSkipCommentIDs, Part000_rangeSkipSubreddits.
  run_writer.
  destruct (mem (ID c) (SkipCommentIDs p)); simpl; [now repeat split |].
  destruct (mem (Subreddit c) (SkipSubreddits p)); simpl; [now repeat split |].
  destruct (After (Created c) (Before p)); simpl; [now repeat split |].
  destruct (MaxScore p <? Score (Src c)); simpl; now repeat split.
Qed.

Lemma shown_of_spec (r : M bool) (d : Disposition) :
  value r = negb (is_keep d) ->
  reasons (events r) = (if is_keep d then [] else [d]) ->
  shown r = Some d.
Proof.
  unfold shown. intros -> ->. now destruct d.
Qed.

Lemma ShouldSkip_shows_decide (c : Comment) (p : Config) :
  shown (MainGo.ShouldSkip c p) = Some (decide c p)
  /\ shown (Part000.ShouldSkip c p) = Some (decide c p).
Proof.
  destruct (MainGo_ShouldSkip_spec c p) as (Hv & Hr & _).
  destruct (Part000_ShouldSkip_spec c p) as (Hv' & Hr' & _).
  split; now apply shown_of_spec.
Qed.

(** ** C1: the order of the checks *)

(** C1.  For every comment and policy, [ShouldSkip] (in both programs) shows
    exactly the disposition of [decide]: the four checks are made in the order
    identifier, sub-community, creation instant after the cutoff, score above
    the maximum; the first check that matches gives the one reason that is
    printed and the result [true]; [false] (keep) is returned only when none
    matches.  In particular an identifier in [SkipCommentIDs] gives skip-by-id
    whatever the other fields are. *)
Theorem C1_first_matching_check_wins (c : Comment) (p : Config) :
  shown (MainGo.ShouldSkip c p) = Some (decide c p)
  /\ shown (Part000.ShouldSkip c p) = Some (decide c p)
  /\ value (MainGo.ShouldSkip c p) = negb (is_keep (decide c p))
  /\ value (Part000.ShouldSkip c p) = negb (is_keep (decide c p))
  /\ (In (ID c) (SkipCommentIDs p) -> decide c p = SkipById)
  /\ (~ In (ID c) (SkipCommentIDs p) ->
      In (Subreddit c) (SkipSubreddits p) -> decide c p = SkipBySubcommunity)
  /\ (~ In (ID c) (SkipCommentIDs p) ->
      ~ In (Subreddit c) (SkipSubreddits p) ->
      After (Created c) (Before p) = true -> decide c p = SkipByDate)
  /\ (~ In (ID c) (SkipCommentIDs p) ->
      ~ In (Subreddit c) (SkipSubreddits p) ->
      After (Created c) (Before p) = false ->
      MaxScore p < Score (Src c) -> decide c p = SkipByScore)
  /\ (~ In (ID c) (SkipCommentIDs p) ->
      ~ In (Subreddit c) (SkipSubreddits p) ->
      After (Created c) (Before p) = false ->
      Score (Src c) <= MaxScore p -> decide c p = Keep).
Proof.
  destruct (MainGo_ShouldSkip_spec c p) as (Hv & Hr & _).
  destruct (Part000_ShouldSkip_spec c p) as (Hv' & Hr' & _).
  repeat split; auto using shown_of_spec; unfold decide.
  - intros H. apply mem_In in H. now rewrite H.
  - intros H1 H2. apply mem_not_In in H1. apply mem_In in H2.
    now rewrite H1, H2.
  - intros H1 H2 H3. apply mem_not_In in H1, H2. now rewrite H1, H2, H3.
  - intros H1 H2 H3 H4. apply mem_not_In in H1, H2. rewrite H1, H2, H3.
    apply Z.ltb_lt in H4. now rewrite H4.
  - intros H1 H2 H3 H4. apply mem_not_In in H1, H2. rewrite H1, H2, H3.
    apply Z.ltb_ge in H4. now rewrite H4.
Qed.

(** ** C4: the date check is strict *)

Lemma After_iff (t u : Time) : After t u = true <-> ~ AtOrBefore t u.
Proof.
  unfold After, AtOrBefore.
  rewrite orb_true_iff, andb_true_iff, !Z.ltb_lt, Z.eqb_eq. lia.
Qed.

Lemma After_false_iff (t u : Time) : After t u = false <-> AtOrBefore t u.
Proof.
  unfold After, AtOrBefore.
  rewrite orb_false_iff, andb_false_iff, !Z.ltb_ge, Z.eqb_neq. lia.
Qed.

Lemma AtOrBefore_refl (t : Time) : AtOrBefore t t.
Proof. unfold AtOrBefore. lia. Qed.

(** C4.  For a comment that neither the identifier check nor the
    sub-community check matches, [ShouldSkip] (in both programs) shows
    skip-by-date if and only if the creation instant is strictly after the
    cutoff [Before]; when the creation instant is the cutoff itself or an
    earlier instant the date check does not skip, and what is shown is left to
    the score check alone. *)
Theorem C4_date_check_is_strict (c : Comment) (p : Config)
    (Hid : ~ In (ID c) (SkipCommentIDs p))
    (Hsub : ~ In (Subreddit c) (SkipSubreddits p)) :
  (shown (MainGo.ShouldSkip c p) = Some SkipByDate
     <-> ~ AtOrBefore (Created c) (Before p))
  /\ (shown (Part000.ShouldSkip c p) = Some SkipByDate
     <-> ~ AtOrBefore (Created c) (Before p))
  /\ (AtOrBefore (Created c) (Before p) ->
      shown (MainGo.ShouldSkip c p)
        = Some (if MaxScore p <? Score (Src c) then SkipByScore else Keep)
      /\ shown (Part000.ShouldSkip c p)
        = Some (if MaxScore p <? Score (Src c) then SkipByScore else Keep))
  /\ (Created c = Before p ->
      shown (MainGo.ShouldSkip c p) <> Some SkipByDate
      /\ shown (Part000.ShouldSkip c p) <> Some SkipByDate).
Proof.
  destruct (ShouldSkip_shows_decide c p) as (HM & HP).
  rewrite HM, HP. apply mem_not_In in Hid, Hsub.
  assert (Hd : decide c p
               = if After (Created c) (Before p) then SkipByDate
                 else if MaxScore p <? Score (Src c) then SkipByScore
                 else Keep)
    by (unfold decide; now rewrite Hid, Hsub).
  rewrite Hd. rewrite <- After_iff.
  assert (Hiff : Some (if After (Created c) (Before p) then SkipByDate
                       else if MaxScore p <? Score (Src c) then SkipByScore
                       else Keep) = Some SkipByDate
                 <-> After (Created c) (Before p) = true).
  { destruct (After (Created c) (Before p));
      destruct (MaxScore p <? Score (Src c)); split; congruence. }
  repeat split; try apply Hiff.
  - apply After_false_iff in H. now rewrite H.
  - apply After_false_iff in H. now rewrite H.
  - intros Habs. apply Hiff in Habs. apply After_iff in Habs.
    apply Habs. rewrite H. apply AtOrBefore_refl.
  - intros Habs. apply Hiff in Habs. apply After_iff in Habs.
    apply Habs. rewrite H. apply AtOrBefore_refl.
Qed.

(** [comment_a] against a cutoff at the second of its creation (kept) and
    against a cutoff one second earlier (skipped by date). *)
Lemma C4_at_the_cutoff_and_one_second_later :
  Created comment_a = Before boundary_config
  /\ shown (MainGo.ShouldSkip comment_a boundary_config) = Some Keep
  /\ shown (Part000.ShouldSkip comment_a boundary_config) = Some Keep
  /\ shown (MainGo.ShouldSkip comment_a earlier_config) = Some SkipByDate.
Proof.
  assert (Hid : ~ In (ID comment_a) ["keepme"])
    by (intros [H | []]; discriminate).
  assert (Hsub : ~ In (Subreddit comment_a) ["mod_only"])
    by (intros [H | []]; discriminate).
  destruct (C4_date_check_is_strict comment_a boundary_config Hid Hsub)
    as (_ & _ & Hle & _).
  destruct (Hle (AtOrBefore_refl (Created comment_a))) as [HM HP].
  destruct (C4_date_check_is_strict comment_a earlier_config Hid Hsub)
    as ([_ Hafter] & _).
  assert (Hlater : ~ AtOrBefore (Created comment_a) (Before earlier_config)).
  { intros [H | [H _]]; vm_compute in H; discriminate. }
  exact (conj eq_refl (conj HM (conj HP (Hafter Hlater)))).
Defined.

(** ** C10: the creation instant is the truncated timestamp *)

Lemma float_den_pos (f : float64) : 0 < float_den f.
Proof. destruct f; simpl; try lia; apply Z.pow_pos_nonneg; lia. Qed.

(** The integer part is the quotient, rounded toward zero, of the value. *)
Lemma float_trunc_quot (f : float64) (z : Z) :
  float_trunc f = Some z -> z = Z.quot (float_num f) (float_den f).
Proof.
  destruct f as [s | s | | s m e]; cbn [float_trunc float_num float_den];
    try discriminate.
  - intros [= <-]. reflexivity.
  - intros [= <-]. destruct (Z.leb_spec 0 e) as [He | He].
    + rewrite (Z.max_l e 0), (Z.max_r (- e) 0) by lia.
      rewrite Z.pow_0_r, Z.quot_1_r. reflexivity.
    + rewrite (Z.max_r e 0), (Z.max_l (- e) 0) by lia.
      rewrite Z.pow_0_r, Z.mul_1_r.
      assert (Hd : 0 < 2 ^ (- e)) by (apply Z.pow_pos_nonneg; lia).
      destruct s.
      * rewrite Z.quot_opp_l by lia. rewrite Z.quot_div_nonneg by lia.
        reflexivity.
      * rewrite Z.quot_div_nonneg by lia. reflexivity.
Qed.

Lemma quot_toward_zero (a b : Z) :
  0 < b ->
  Z.abs (Z.quot a b) * b <= Z.abs a < (Z.abs (Z.quot a b) + 1) * b
  /\ 0 <= Z.quot a b * a.
Proof.
  intros Hb. destruct (Z.le_gt_cases 0 a) as [Ha | Ha].
  - rewrite Z.quot_div_nonneg by lia.
    pose proof (Z.div_pos a b Ha Hb) as Hq.
    pose proof (Z.mul_div_le a b Hb). pose proof (Z.mul_succ_div_gt a b Hb).
    rewrite !Z.abs_eq by lia. nia.
  - replace a with (- (- a)) by lia. rewrite Z.quot_opp_l by lia.
    rewrite Z.quot_div_nonneg by lia.
    assert (Hq : 0 <= - a / b) by (apply Z.div_pos; lia).
    pose proof (Z.mul_div_le (- a) b Hb).
    pose proof (Z.mul_succ_div_gt (- a) b Hb).
    rewrite !Z.abs_opp, !Z.abs_eq by lia. nia.
Qed.

Lemma Unix_whole_seconds (s : Z) :
  Unix s 0 = {| sec := wrap64 (s + unixToInternal); nsec := 0 |}.
Proof. reflexivity. Qed.

Lemma float_trunc_finite (s : bool) (m : positive) (e : Z) :
  float_trunc (S754_finite s m e)
  = Some (Z.quot (float_num (S754_finite s m e))
                 (float_den (S754_finite s m e))).
Proof.
  destruct (float_trunc (S754_finite s m e)) as [z |] eqn:Hz;
    [| discriminate].
  now rewrite (float_trunc_quot _ _ Hz).
Qed.

Lemma wrap64_injective_near (x y : Z) :
  - 2 ^ 64 < x - y < 2 ^ 64 -> wrap64 x = wrap64 y -> x = y.
Proof.
  unfold wrap64. intros Hnear Heq.
  assert (Hm : (x + 2 ^ 63) mod 2 ^ 64 = (y + 2 ^ 63) mod 2 ^ 64) by lia.
  pose proof (Z.div_mod (x + 2 ^ 63) (2 ^ 64) ltac:(lia)) as Hx.
  pose proof (Z.div_mod (y + 2 ^ 63) (2 ^ 64) ltac:(lia)) as Hy.
  rewrite Hm in Hx.
  set (qx := (x + 2 ^ 63) / 2 ^ 64) in *.
  set (qy := (y + 2 ^ 63) / 2 ^ 64) in *.
  set (r := (y + 2 ^ 63) mod 2 ^ 64) in *.
  change (2 ^ 64) with 18446744073709551616 in *.
  change (2 ^ 63) with 9223372036854775808 in *.
  lia.
Qed.

(** C10.  [Created] is the timestamp converted by [int64(...)] with zero
    nanoseconds.  Every finite timestamp has an integer part, the value's
    quotient rounded toward zero (its magnitude is the largest whole number
    not above the magnitude of the timestamp, its sign the timestamp's; a
    zero has the integer part 0), and the creation instant is that second
    whenever [int64] holds it.  So the comparison with the cutoff looks at
    whole seconds only: two comments whose timestamps have the same integer
    part have the same creation instant and get the same decision from the
    date check, and two comments whose timestamps have different integer
    parts that [int64] holds have different creation instants. *)
Theorem C10_created_truncates_toward_zero (c c' : Comment) (p : Config) :
  Created c
  = {| sec := wrap64 (int64_of_float64 (CreatedUTC (Src c)) + unixToInternal);
       nsec := 0 |}
  /\ (forall z : Z,
        float_trunc (CreatedUTC (Src c)) = Some z ->
        z = Z.quot (float_num (CreatedUTC (Src c)))
                   (float_den (CreatedUTC (Src c)))
        /\ Z.abs z * float_den (CreatedUTC (Src c))
             <= Z.abs (float_num (CreatedUTC (Src c)))
             < (Z.abs z + 1) * float_den (CreatedUTC (Src c))
        /\ 0 <= z * float_num (CreatedUTC (Src c))
        /\ (min_int64 <= z <= max_int64 ->
            int64_of_float64 (CreatedUTC (Src c)) = z))
  /\ (0 <= nsec (Before p) ->
      After (Created c) (Before p) = (sec (Before p) <? sec (Created c)))
  /\ (float_trunc (CreatedUTC (Src c')) = float_trunc (CreatedUTC (Src c)) ->
      Created c' = Created c
      /\ After (Created c') (Before p) = After (Created c) (Before p))
  /\ (forall (s : bool) (m : positive) (e : Z),
        CreatedUTC (Src c) = S754_finite s m e ->
        float_trunc (CreatedUTC (Src c))
        = Some (Z.quot (float_num (CreatedUTC (Src c)))
                       (float_den (CreatedUTC (Src c))))
        /\ (min_int64
              <= Z.quot (float_num (CreatedUTC (Src c)))
                        (float_den (CreatedUTC (Src c)))
              <= max_int64 ->
            Created c
            = {| sec := wrap64 (Z.quot (float_num (CreatedUTC (Src c)))
                                       (float_den (CreatedUTC (Src c)))
                                + unixToInternal);
                 nsec := 0 |}))
  /\ (forall s : bool,
        CreatedUTC (Src c) = S754_zero s ->
        float_trunc (CreatedUTC (Src c)) = Some 0
        /\ Created c = Unix 0 0)
  /\ (forall z z' : Z,
        float_trunc (CreatedUTC (Src c)) = Some z ->
        float_trunc (CreatedUTC (Src c')) = Some z' ->
        min_int64 <= z <= max_int64 ->
        min_int64 <= z' <= max_int64 ->
        z <> z' -> Created c <> Created c').
Proof.
  split; [apply Unix_whole_seconds |].
  split; [| split; [| split; [| split; [| split]]]].
  - intros z Hz. pose proof (float_trunc_quot _ _ Hz) as Hq.
    pose proof (quot_toward_zero (float_num (CreatedUTC (Src c)))
                  (float_den (CreatedUTC (Src c)))
                  (float_den_pos _)) as [Hb Hs].
    rewrite <- Hq in Hb, Hs. repeat split; try tauto.
    intros [Hlo Hhi]. unfold int64_of_float64. rewrite Hz.
    apply Z.leb_le in Hlo, Hhi. now rewrite Hlo, Hhi.
  - intros Hn. unfold Created. rewrite Unix_whole_seconds.
    unfold After. simpl.
    destruct (Z.ltb_spec (nsec (Before p)) 0) as [H | H]; [lia |].
    now rewrite andb_false_r, orb_false_r.
  - intros Heq. assert (HC : Created c' = Created c)
      by (unfold Created, int64_of_float64; now rewrite Heq).
    split; [exact HC | now rewrite HC].
  - intros s m e Hf. rewrite Hf.
    split; [apply float_trunc_finite |].
    intros [Hlo Hhi]. unfold Created, int64_of_float64.
    rewrite Hf, float_trunc_finite.
    apply Z.leb_le in Hlo, Hhi. rewrite Hlo, Hhi.
    apply Unix_whole_seconds.
  - intros s Hf. unfold Created. rewrite Hf. split; reflexivity.
  - intros z z' Hz Hz' [Hlo Hhi] [Hlo' Hhi'] Hne Heq.
    unfold Created, int64_of_float64 in Heq. rewrite Hz, Hz' in Heq.
    pose proof Hlo as Blo. pose proof Hhi as Bhi.
    pose proof Hlo' as Blo'. pose proof Hhi' as Bhi'.
    apply Z.leb_le in Hlo, Hhi, Hlo', Hhi'.
    rewrite Hlo, Hhi, Hlo', Hhi' in Heq. cbn [andb] in Heq.
    rewrite !Unix_whole_seconds in Heq. injection Heq as Heq.
    apply wrap64_injective_near in Heq; [lia |].
    unfold min_int64, max_int64 in *.
    change (2 ^ 64) with 18446744073709551616.
    change (2 ^ 63) with 9223372036854775808 in *. lia.
Qed.

(** 1300000000.75 and 1300000000.25 give the same instant, second
    1300000000 of the epoch; -1.5 goes to -1, toward zero. *)
Example created_drops_the_fraction :
  float_trunc stamp_a = Some 1300000000
  /\ float_trunc stamp_b = Some 1300000000
  /\ Created comment_a = Unix 1300000000 0
  /\ Created comment_b = Created comment_a
  /\ int64_of_float64 (S754_finite true 3 (-1)) = -1.
Proof. repeat split; reflexivity. Qed.

(** ** What the workflow of one comment sends *)

Ltac split_writer :=
  repeat match goal with
         | |- context [if ?b then _ else _] => destruct b
         | |- context [match ?r with EditTransportError => _ | _ => _ end] =>
             destruct r
         | |- context [match ?r with DeleteTransportError => _ | _ => _ end] =>
             destruct r
         end.

Lemma MainGo_Edit_actions (c : Comment) (tok : string) (p : Config)
    (er : EditReply) :
  actions (events (MainGo.Edit c tok p er))
  = if kept c p then [Call (edit_request c tok p)] else [].
Proof.
  unfold MainGo.Edit, kept.
  destruct (MainGo_ShouldSkip_spec c p) as (Hv & _ & Ha).
  destruct (MainGo.ShouldSkip c p) as [b t]. run_writer. subst b.
  destruct (is_keep (decide c p)), (DryRun p); simpl;
    try (rewrite app_nil_r; exact Ha);
    split_writer; simpl; rewrite actions_app, Ha; reflexivity.
Qed.

Lemma MainGo_Delete_actions (c : Comment) (tok : string) (p : Config)
    (dr : DeleteReply) :
  actions (events (MainGo.Delete c tok p dr))
  = if kept c p then [Call (delete_request c tok p)] else [].
Proof.
  unfold MainGo.Delete, kept.
  destruct (MainGo_ShouldSkip_spec c p) as (Hv & _ & Ha).
  destruct (MainGo.ShouldSkip c p) as [b t]. run_writer. subst b.
  destruct (is_keep (decide c p)), (DryRun p); simpl;
    split_writer; simpl; rewrite actions_app, Ha; reflexivity.
Qed.

Lemma Part000_Edit_actions (c : Comment) (tok : string) (p : Config)
    (er : EditReply) :
  actions (events (Part000.Edit c tok p er))
  = if kept c p then [Call (edit_request c tok p)] else [].
Proof.
  unfold Part000.Edit, kept.
  destruct (Part000_ShouldSkip_spec c p) as (Hv & _ & Ha).
  destruct (Part000.ShouldSkip c p) as [b t]. run_writer. subst b.
  destruct (is_keep (decide c p)), (DryRun p); simpl;
    try (rewrite app_nil_r; exact Ha);
    split_writer; simpl; rewrite actions_app, Ha; reflexivity.
Qed.

Lemma Part000_Delete_actions (c : Comment) (tok : string) (p : Config)
    (dr : DeleteReply) :
  actions (events (Part000.Delete c tok p dr))
  = if kept c p then [Call (delete_request c tok p)] else [].
Proof.
  unfold Part000.Delete, kept.
  destruct (Part000_ShouldSkip_spec c p) as (Hv & _ & Ha).
  destruct (Part000.ShouldSkip c p) as [b t]. run_writer. subst b.
  destruct (is_keep (decide c p)), (DryRun p); simpl;
    try (rewrite app_nil_r; exact Ha);
    split_writer; simpl; rewrite actions_app, Ha; reflexivity.
Qed.

Lemma events_bind {A B} (m : M A) (k : A -> M B) :
  events (bind m k) = events m ++ events (k (value m)).
Proof.
  unfold events, value, bind. destruct m as [a t]. simpl.
  now destruct (k a).
Qed.

(** The loop of [main]: every comment received goes through its workflow,
    whatever the platform answered to the calls made for the comments
    before it. *)
Lemma MainGo_rangeList_actions (w : World) (tok : string) (p : Config)
    (n : nat) (cs : list Comment) :
  actions (events (MainGo.rangeList w tok p n cs))
  = flat_map (workflow tok p) cs.
Proof.
  revert n. induction cs as [| c cs IH]; intros n; [reflexivity |].
  cbn [MainGo.rangeList flat_map].
  rewrite !events_bind, !actions_app, IH.
  rewrite MainGo_Edit_actions, MainGo_Delete_actions.
  unfold workflow. now destruct (kept c p).
Qed.

Lemma Part000_rangeList_actions (w : World) (tok : string) (p : Config)
    (n : nat) (cs : list Comment) :
  actions (events (Part000.rangeList w tok p n cs))
  = flat_map (paced_workflow tok p) cs.
Proof.
  revert n. induction cs as [| c cs IH]; intros n; [reflexivity |].
  cbn [Part000.rangeList flat_map].
  rewrite !events_bind, !actions_app, IH.
  rewrite Part000_Edit_actions, Part000_Delete_actions.
  unfold paced_workflow, workflow. now destruct (kept c p).
Qed.

(** ** The token exchange *)

Lemma MainGo_newAccessToken_spec (p : Config) (r : TokenReply) :
  events (MainGo.newAccessToken p r) = [Do (token_request p)]
  /\ match token_of r with
     | Some tok => value (MainGo.newAccessToken p r) = (tok, None)
     | None => fst (value (MainGo.newAccessToken p r)) = EmptyString
               /\ snd (value (MainGo.newAccessToken p r)) <> None
     end.
Proof.
  unfold MainGo.newAccessToken, token_of. run_writer.
  destruct r as [| | | res]; simpl;
    try (split; [reflexivity | split; [reflexivity | discriminate]]).
  destruct (String.eqb (Error res) EmptyString); simpl;
    split; try reflexivity; split; [reflexivity | discriminate].
Qed.

Lemma Part000_newAccessToken_spec (p : Config) (r : TokenReply) :
  events (Part000.newAccessToken p r) = [Do (token_request p)]
  /\ match token_of r with
     | Some tok => value (Part000.newAccessToken p r) = (tok, None)
     | None => fst (value (Part000.newAccessToken p r)) = EmptyString
               /\ snd (value (Part000.newAccessToken p r)) <> None
     end.
Proof.
  unfold Part000.newAccessToken, token_of. run_writer.
  destruct r as [| | | res]; simpl;
    try (split; [reflexivity | split; [reflexivity | discriminate]]).
  destruct (String.eqb (Error res) EmptyString); simpl;
    split; try reflexivity; split; [reflexivity | discriminate].
Qed.

(** ** The producer *)

Lemma map_Send_received (cs : list Comment) : received (map Send cs) = cs.
Proof. induction cs as [| c cs IH]; simpl; [reflexivity | now rewrite IH]. Qed.

Lemma map_Send_actions (cs : list Comment) : actions (map Send cs) = [].
Proof. induction cs as [| c cs IH]; simpl; [reflexivity | exact IH]. Qed.

Lemma map_Send_closed (cs : list Comment) : closed (map Send cs) = false.
Proof. induction cs as [| c cs IH]; simpl; [reflexivity | exact IH]. Qed.

Lemma page_events_received (p : Config) (cursor : string)
    (pages : list Response) :
  received (page_events p cursor pages) = flat_map page_comments pages.
Proof.
  revert cursor. induction pages as [| res more IH]; intros cursor;
    [reflexivity |].
  simpl. now rewrite received_app, map_Send_received, IH.
Qed.


Lemma page_events_closed (p : Config) (cursor : string)
    (pages : list Response) :
  closed (page_events p cursor pages) = false.
Proof.
  revert cursor. induction pages as [| res more IH]; intros cursor;
    [reflexivity |].
  simpl. now rewrite closed_app, map_Send_closed, IH.
Qed.


Lemma cursors_app (cursor : string) (pages more : list Response) :
  cursors cursor (pages ++ more)
  = cursors cursor pages ++ cursors (next_cursor cursor pages) more.
Proof.
  revert cursor. induction pages as [| res pages IH]; intros cursor;
    [reflexivity |].
  simpl. now rewrite IH.
Qed.


(** As long as the pages are not terminal the loop goes round: it emits the
    page and asks for the next one with the cursor just returned. *)
Lemma listLoop_continues (say : Msg -> Event) (p : Config) (cursor : string)
    (pre : list Response) (rest : list FetchReply) :
  Forall (fun res => terminal res = false) pre ->
  listLoop say p cursor (map FetchDecoded pre ++ rest)
  = page_events p cursor pre ++ listLoop say p (next_cursor cursor pre) rest.
Proof.
  intros Hpre. revert cursor.
  induction Hpre as [| res pre Hres _ IH]; intros cursor; [reflexivity |].
  cbn [map app listLoop page_events next_cursor].
  unfold terminal in Hres. rewrite Hres, IH.
  unfold page_comments. rewrite map_map, <- app_assoc. reflexivity.
Qed.







(** ** C3: the stream *)



(** ** The two [main] functions *)

Lemma MainGo_main_run (p : Config) (w : World) :
  let tok := fst (value (MainGo.newAccessToken p (token_reply w))) in
  list_goroutine (MainGo.main (Some p) w) = MainGo.List p (listing w)
  /\ actions (main_goroutine (MainGo.main (Some p) w))
     = Call (token_request p)
       :: flat_map (workflow tok p) (received (MainGo.List p (listing w)))
  /\ outcome (MainGo.main (Some p) w)
     = if closed (MainGo.List p (listing w)) then Exited 0 else Blocked.
Proof.
  pose proof (MainGo_newAccessToken_spec p (token_reply w)) as [He _].
  pose proof (MainGo_rangeList_actions w
                (fst (value (MainGo.newAccessToken p (token_reply w)))) p 0
                (received (MainGo.List p (listing w)))) as Hl.
  unfold MainGo.main. unfold events, value in *.
  destruct (MainGo.newAccessToken p (token_reply w)) as [[tok err] t1].
  cbn [fst snd] in *. subst t1.
  destruct (MainGo.rangeList w tok p 0 (received (MainGo.List p (listing w))))
    as [u t2].
  cbn [fst snd main_goroutine list_goroutine outcome app actions] in *.
  now rewrite Hl.
Qed.

Lemma Part000_main_with_token (p : Config) (w : World) (tok : string) :
  token_of (token_reply w) = Some tok ->
  list_goroutine (Part000.main p w) = Part000.List p (listing w)
  /\ actions (main_goroutine (Part000.main p w))
     = Call (token_request p)
       :: flat_map (paced_workflow tok p)
            (received (Part000.List p (listing w)))
  /\ outcome (Part000.main p w)
     = if closed (Part000.List p (listing w)) then Exited 0 else Blocked.
Proof.
  intros Htok.
  pose proof (Part000_newAccessToken_spec p (token_reply w)) as [He Hv].
  rewrite Htok in Hv.
  pose proof (Part000_rangeList_actions w tok p 0
                (received (Part000.List p (listing w)))) as Hl.
  unfold Part000.main. unfold events, value in *.
  destruct (Part000.newAccessToken p (token_reply w)) as [[tok' err] t1].
  cbn [fst snd] in *. subst t1. injection Hv as -> ->.
  destruct (Part000.rangeList w tok p 0
              (received (Part000.List p (listing w)))) as [u t2].
  cbn [fst snd main_goroutine list_goroutine outcome app actions] in *.
  now rewrite Hl.
Qed.

(** Without a token the program of [part_000] stops at [log.Fatalf]: the
    token request is the only request of the run. *)
Lemma Part000_main_without_token (p : Config) (w : World) :
  token_of (token_reply w) = None ->
  Part000.main p w
  = {| main_goroutine := [Do (token_request p); Stderr MsgNoToken; Exit 1];
       list_goroutine := [];
       outcome := Exited 1 |}.
Proof.
  intros Htok.
  pose proof (Part000_newAccessToken_spec p (token_reply w)) as [He Hv].
  rewrite Htok in Hv. destruct Hv as [_ Herr].
  unfold Part000.main. unfold events, value in *.
  destruct (Part000.newAccessToken p (token_reply w)) as [[tok' err] t1].
  cbn [fst snd] in *. subst t1. destruct err; [reflexivity | contradiction].
Qed.

Lemma listLoop_sends_no_mutating_call (say : Msg -> Event) (p : Config)
    (cursor : string) (replies : list FetchReply) :
  say = Stdout \/ say = Stderr ->
  mutating_calls (listLoop say p cursor replies) = [].
Proof.
  intros Hsay. revert cursor.
  induction replies as [| reply rest IH]; intros cursor; [reflexivity |].
  unfold mutating_calls, requests in *.
  destruct reply as [| | partial | res]; cbn [listLoop];
    try (destruct Hsay as [-> | ->]; reflexivity).
  cbn [actions]. rewrite actions_app.
  rewrite <- (map_map ChildData Send), map_Send_actions.
  cbn [app calls filter]. change (is_mutating (listing_request p cursor))
    with false. cbn iota.
  destruct (Nat.eqb (List.length (Children (Data res))) 0
            || String.eqb (RespAfter (Data res)) EmptyString);
    [reflexivity | apply IH].
Qed.

Lemma flat_map_nil {A B} (f : A -> list B) (l : list A) :
  (forall a, f a = []) -> flat_map f l = [].
Proof.
  intros Hf. induction l as [| a l IH]; simpl; [reflexivity |].
  now rewrite Hf, IH.
Qed.

Lemma calls_paced (tok : string) (p : Config) (cs : list Comment) :
  calls (flat_map (paced_workflow tok p) cs)
  = calls (flat_map (workflow tok p) cs).
Proof.
  induction cs as [| c cs IH]; [reflexivity |].
  cbn [flat_map]. rewrite !calls_app, IH. unfold paced_workflow.
  rewrite calls_app. cbn [calls]. now rewrite app_nil_r.
Qed.

Lemma kept_false (c : Comment) (p : Config) :
  decide c p <> Keep \/ DryRun p = true -> kept c p = false.
Proof.
  unfold kept. intros [H | H].
  - destruct (decide c p); simpl; congruence.
  - rewrite H. apply andb_false_r.
Qed.

Lemma List_sends_no_mutating_call (p : Config) (replies : list FetchReply) :
  mutating_calls (MainGo.List p replies) = []
  /\ mutating_calls (Part000.List p replies) = [].
Proof.
  split.
  - change (mutating_calls (listLoop Stdout p EmptyString replies) = []).
    apply listLoop_sends_no_mutating_call. now left.
  - change (mutating_calls (listLoop Stderr p EmptyString replies) = []).
    apply listLoop_sends_no_mutating_call. now right.
Qed.

(** ** C2: no mutating call for a skipped comment or in a dry run *)

(** C2.  When [decide] does not keep the comment or [DryRun] is set,
    processing the comment sends no request at all: neither [Edit] nor
    [Delete] (of either program) reaches [client.Do].  With [DryRun] set,
    a whole run, whatever the platform answers and however many comments the
    stream delivers, sends no edit and no delete call from either
    goroutine. *)
Theorem C2_no_mutating_call_when_skipped_or_dry_run (c : Comment)
    (p : Config) (tok : string) (er : EditReply) (dr : DeleteReply)
    (w : World)
    (H : decide c p <> Keep \/ DryRun p = true) :
  requests (events (MainGo.Edit c tok p er)) = []
  /\ requests (events (MainGo.Delete c tok p dr)) = []
  /\ requests (events (Part000.Edit c tok p er)) = []
  /\ requests (events (Part000.Delete c tok p dr)) = []
  /\ (DryRun p = true ->
      mutating_calls (main_goroutine (MainGo.main (Some p) w)) = []
      /\ mutating_calls (list_goroutine (MainGo.main (Some p) w)) = []
      /\ mutating_calls (main_goroutine (Part000.main p w)) = []
      /\ mutating_calls (list_goroutine (Part000.main p w)) = []).
Proof.
  pose proof (kept_false c p H) as Hk. unfold requests.
  rewrite MainGo_Edit_actions, MainGo_Delete_actions,
    Part000_Edit_actions, Part000_Delete_actions, Hk.
  repeat split; try reflexivity.
  - destruct (MainGo_main_run p w) as (_ & Ha & _).
    unfold mutating_calls, requests. rewrite Ha.
    rewrite flat_map_nil; [reflexivity |].
    intros a. unfold workflow. rewrite kept_false; auto.
  - destruct (MainGo_main_run p w) as (Hl & _). rewrite Hl.
    apply List_sends_no_mutating_call.
  - destruct (token_of (token_reply w)) as [tok' |] eqn:Htok.
    + destruct (Part000_main_with_token p w tok' Htok) as (_ & Ha & _).
      unfold mutating_calls, requests. rewrite Ha.
      cbn [calls]. rewrite calls_paced, flat_map_nil; [reflexivity |].
      intros a. unfold workflow. rewrite kept_false; auto.
    + rewrite Part000_main_without_token by assumption. reflexivity.
  - destruct (token_of (token_reply w)) as [tok' |] eqn:Htok.
    + destruct (Part000_main_with_token p w tok' Htok) as (Hl & _).
      rewrite Hl. apply List_sends_no_mutating_call.
    + rewrite Part000_main_without_token by assumption. reflexivity.
Qed.

(** A dry run over the two-page listing: the two comments are eligible, and
    nothing is edited or deleted. *)
Lemma C2_dry_run_over_two_pages :
  decide comment_a dry_config = Keep
  /\ DryRun dry_config = true
  /\ requests (events (MainGo.Edit comment_a "tok" dry_config
                         EditTransportError)) = []
  /\ mutating_calls
       (main_goroutine (MainGo.main (Some dry_config) world_two_pages)) = []
  /\ mutating_calls
       (main_goroutine (Part000.main dry_config world_two_pages)) = [].
Proof.
  assert (Hdry : DryRun dry_config = true) by reflexivity.
  destruct (C2_no_mutating_call_when_skipped_or_dry_run comment_a dry_config
              "tok" EditTransportError DeleteResponded world_two_pages
              (or_intror Hdry))
    as (He & _ & _ & _ & Hrun).
  destruct (Hrun Hdry) as (Hm & _ & Hp & _).
  exact (conj eq_refl (conj Hdry (conj He (conj Hm Hp)))).
Defined.

(** ** C7: a failed edit or delete stops nothing *)





(** The run over two comments in which the first comment's edit and delete
    both fail: its delete is sent all the same, and the second comment is
    edited and deleted. *)
Example failing_mutations_run :
  requests (main_goroutine
              (MainGo.main (Some sample_config) world_failing_mutations))
  = [token_request sample_config;
     edit_request comment_a "tok" sample_config;
     delete_request comment_a "tok" sample_config;
     edit_request comment_b "tok" sample_config;
     delete_request comment_b "tok" sample_config]
  /\ outcome (MainGo.main (Some sample_config) world_failing_mutations)
     = Exited 0.
Proof. split; reflexivity. Qed.

(** ** C6: a failed fetch *)

Lemma List_with_failure (say : Msg -> Event) (p : Config)
    (pre : list Response) (bad : FetchReply) (rest : list FetchReply) :
  Forall (fun res => terminal res = false) pre ->
  failed_fetch bad = true ->
  List_with say p (map FetchDecoded pre ++ bad :: rest)
  = say MsgFetching
    :: page_events p EmptyString pre
    ++ [Do (listing_request p (next_cursor EmptyString pre));
        say (failure_line bad); Close].
Proof.
  intros Hpre Hbad. unfold List_with.
  rewrite listLoop_continues by assumption.
  destruct bad; try discriminate; reflexivity.
Qed.

Lemma failed_stream (p : Config) (pre : list Response) (cursor : string)
    (hello bye : Event) :
  actions [hello] = [] -> received [hello] = [] -> closed [hello] = false ->
  received [bye] = [] ->
  received (hello :: page_events p EmptyString pre
              ++ [Do (listing_request p cursor); bye; Close])
    = flat_map page_comments pre
  /\ closed (hello :: page_events p EmptyString pre
               ++ [Do (listing_request p cursor); bye; Close]) = true.
Proof.
  intros Ha Hr Hc Hb.
  change (hello :: page_events p EmptyString pre
            ++ [Do (listing_request p cursor); bye; Close])
    with ([hello] ++ page_events p EmptyString pre
            ++ [Do (listing_request p cursor)] ++ [bye] ++ [Close]).
  rewrite !received_app, !closed_app, Hr, Hc, Hb.
  rewrite page_events_received, page_events_closed. simpl.
  rewrite app_nil_r, !orb_true_r. now split.
Qed.

(** C6, as the code has it.  When a page fetch ends in a transport error or
    in a body that does not decode, after the pages [pre], the producer (of
    both programs) prints the failure and returns: no comment of the failed
    page is put on the channel, whatever part of it was decoded, and no
    further request is sent.  The failure is printed and nothing else: the
    channel is closed as it is after the last page and carries comments only,
    so [main] leaves its loop and returns with status 0; the comments of the
    pages before went through their workflow and stay as they are. *)
Theorem C6_failed_fetch_closes_the_stream_silently (p : Config)
    (pre : list Response) (bad : FetchReply) (rest : list FetchReply)
    (w : World)
    (Hpre : Forall (fun res => terminal res = false) pre)
    (Hbad : failed_fetch bad = true)
    (Hw : listing w = map FetchDecoded pre ++ bad :: rest) :
  MainGo.List p (listing w)
  = Stdout MsgFetching
    :: page_events p EmptyString pre
    ++ [Do (listing_request p (next_cursor EmptyString pre));
        Stdout (failure_line bad); Close]
  /\ Part000.List p (listing w)
     = Stderr MsgFetching
       :: page_events p EmptyString pre
       ++ [Do (listing_request p (next_cursor EmptyString pre));
           Stderr (failure_line bad); Close]
  /\ received (MainGo.List p (listing w)) = flat_map page_comments pre
  /\ received (Part000.List p (listing w)) = flat_map page_comments pre
  /\ closed (MainGo.List p (listing w)) = true
  /\ closed (Part000.List p (listing w)) = true
  /\ outcome (MainGo.main (Some p) w) = Exited 0
  /\ actions (main_goroutine (MainGo.main (Some p) w))
     = Call (token_request p)
       :: flat_map
            (workflow (fst (value (MainGo.newAccessToken p (token_reply w))))
               p)
            (flat_map page_comments pre)
  /\ (forall tok : string,
        token_of (token_reply w) = Some tok ->
        outcome (Part000.main p w) = Exited 0
        /\ actions (main_goroutine (Part000.main p w))
           = Call (token_request p)
             :: flat_map (paced_workflow tok p) (flat_map page_comments pre)).
Proof.
  assert (HM : MainGo.List p (listing w)
               = Stdout MsgFetching
                 :: page_events p EmptyString pre
                 ++ [Do (listing_request p (next_cursor EmptyString pre));
                     Stdout (failure_line bad); Close])
    by (rewrite Hw; now apply List_with_failure).
  assert (HP : Part000.List p (listing w)
               = Stderr MsgFetching
                 :: page_events p EmptyString pre
                 ++ [Do (listing_request p (next_cursor EmptyString pre));
                     Stderr (failure_line bad); Close])
    by (rewrite Hw; now apply List_with_failure).
  destruct (failed_stream p pre (next_cursor EmptyString pre)
              (Stdout MsgFetching) (Stdout (failure_line bad))
              eq_refl eq_refl eq_refl eq_refl) as [HMr HMc].
  destruct (failed_stream p pre (next_cursor EmptyString pre)
              (Stderr MsgFetching) (Stderr (failure_line bad))
              eq_refl eq_refl eq_refl eq_refl) as [HPr HPc].
  rewrite <- HM in HMr, HMc. rewrite <- HP in HPr, HPc.
  destruct (MainGo_main_run p w) as (_ & Ha & Ho).
  rewrite HMc in Ho. rewrite HMr in Ha.
  repeat split; try assumption.
  - destruct (Part000_main_with_token p w tok H) as (_ & _ & Ho').
    now rewrite HPc in Ho'.
  - destruct (Part000_main_with_token p w tok H) as (_ & Ha' & _).
    now rewrite HPr in Ha'.
Qed.

(** The second body of the listing fails to decode after a full page was
    read from it: the two comments of the first page are streamed and
    processed, none of the second, and the run ends with status 0. *)
Lemma C6_undecodable_second_page :
  received (MainGo.List sample_config (listing world_undecodable))
    = [comment_a; comment_b]
  /\ closed (MainGo.List sample_config (listing world_undecodable)) = true
  /\ outcome (MainGo.main (Some sample_config) world_undecodable) = Exited 0.
Proof.
  assert (Hpre : Forall (fun res => terminal res = false) [page_one])
    by (repeat constructor).
  destruct (C6_failed_fetch_closes_the_stream_silently sample_config
              [page_one] (FetchUndecodable page_one) [] world_undecodable
              Hpre eq_refl eq_refl)
    as (_ & _ & Hr & _ & Hc & _ & Ho & _).
  exact (conj Hr (conj Hc Ho)).
Defined.

(** C6 as stated fails: a run whose first fetch fails in transport and a
    run whose first page is empty end alike.  In both the consumer receives
    no comment and sees the channel closed, and [main] returns with status
    0, in either program; the failure shows in the printed line only. *)
Lemma C6_failed_fetch_ends_like_exhaustion :
  failed_fetch FetchTransportError = true
  /\ received (list_goroutine
                 (MainGo.main (Some sample_config) world_failed_fetch))
     = received (list_goroutine
                   (MainGo.main (Some sample_config) world_exhausted))
  /\ closed (list_goroutine
               (MainGo.main (Some sample_config) world_failed_fetch))
     = closed (list_goroutine
                 (MainGo.main (Some sample_config) world_exhausted))
  /\ outcome (MainGo.main (Some sample_config) world_failed_fetch) = Exited 0
  /\ outcome (MainGo.main (Some sample_config) world_exhausted) = Exited 0
  /\ received (list_goroutine (Part000.main sample_config world_failed_fetch))
     = received (list_goroutine (Part000.main sample_config world_exhausted))
  /\ outcome (Part000.main sample_config world_failed_fetch) = Exited 0
  /\ outcome (Part000.main sample_config world_exhausted) = Exited 0
  /\ main_goroutine (MainGo.main (Some sample_config) world_failed_fetch)
     = main_goroutine (MainGo.main (Some sample_config) world_exhausted).
Proof. repeat split; reflexivity. Qed.

(** ** C5: a failed token exchange *)

(** In [src/main.go] a failed exchange changes nothing but the token, which
    is then empty: the listing is fetched and every kept comment is edited
    and deleted with [Bearer] and no token. *)
Lemma MainGo_main_without_token (p : Config) (w : World) :
  token_of (token_reply w) = None ->
  list_goroutine (MainGo.main (Some p) w) = MainGo.List p (listing w)
  /\ actions (main_goroutine (MainGo.main (Some p) w))
     = Call (token_request p)
       :: flat_map (workflow EmptyString p)
            (received (MainGo.List p (listing w))).
Proof.
  intros Htok. destruct (MainGo_main_run p w) as (Hl & Ha & _).
  destruct (MainGo_newAccessToken_spec p (token_reply w)) as [_ Hv].
  rewrite Htok in Hv. destruct Hv as [Hv _]. rewrite Hv in Ha.
  now split.
Qed.

(** C5 at a failing input.  The token exchange fails in transport and the
    listing holds two eligible comments.  [src/main.go] goes on: both pages
    are requested and both comments are edited and deleted with an empty
    token, and [main] returns with status 0.  [part_000] stops at
    [log.Fatalf] with status 1, its producer never started. *)
Theorem C5_main_go_goes_on_without_a_token :
  token_of (token_reply world_no_token) = None
  /\ requests (list_goroutine
                 (MainGo.main (Some sample_config) world_no_token))
     = [listing_request sample_config EmptyString;
        listing_request sample_config "X"]
  /\ mutating_calls (main_goroutine
                       (MainGo.main (Some sample_config) world_no_token))
     = [edit_request comment_a EmptyString sample_config;
        delete_request comment_a EmptyString sample_config;
        edit_request comment_b EmptyString sample_config;
        delete_request comment_b EmptyString sample_config]
  /\ outcome (MainGo.main (Some sample_config) world_no_token) = Exited 0
  /\ Part000.main sample_config world_no_token
     = {| main_goroutine :=
            [Do (token_request sample_config); Stderr MsgNoToken; Exit 1];
          list_goroutine := [];
          outcome := Exited 1 |}.
Proof. repeat split; reflexivity. Qed.

(** ** C8: the pause after each comment *)

Lemma waits_workflow (tok : string) (p : Config) (cs : list Comment) :
  waits (flat_map (workflow tok p) cs) = [].
Proof.
  induction cs as [| c cs IH]; [reflexivity |].
  cbn [flat_map]. rewrite waits_app, IH. unfold workflow.
  now destruct (kept c p).
Qed.

Lemma waits_paced_workflow (tok : string) (p : Config) (cs : list Comment) :
  waits (flat_map (paced_workflow tok p) cs)
  = repeat (15 * Second) (List.length cs).
Proof.
  induction cs as [| c cs IH]; [reflexivity |].
  cbn [flat_map]. rewrite waits_app, IH. unfold paced_workflow, workflow.
  now destruct (kept c p).
Qed.

(** [src/main.go] never pauses; [part_000] pauses 15 seconds after each
    comment it receives. *)
Lemma MainGo_never_sleeps (loaded : option Config) (w : World) :
  sleeps (main_goroutine (MainGo.main loaded w)) = [].
Proof.
  destruct loaded as [p |]; [| reflexivity].
  destruct (MainGo_main_run p w) as (_ & Ha & _).
  unfold sleeps. rewrite Ha. cbn [waits]. apply waits_workflow.
Qed.

Lemma Part000_sleeps_after_each_comment (p : Config) (w : World)
    (tok : string) :
  token_of (token_reply w) = Some tok ->
  sleeps (main_goroutine (Part000.main p w))
  = repeat (15 * Second)
      (List.length (received (list_goroutine (Part000.main p w)))).
Proof.
  intros Htok. destruct (Part000_main_with_token p w tok Htok) as (Hl & Ha & _).
  unfold sleeps. rewrite Ha, Hl. cbn [waits]. apply waits_paced_workflow.
Qed.

(** C8 at a failing input.  Two eligible comments are streamed.
    [part_000] waits 15 seconds after the calls of each; [src/main.go], whose
    sleep is commented out, sends the calls of the second comment right after
    those of the first and never waits. *)
Theorem C8_main_go_does_not_pause_between_comments :
  actions (main_goroutine (MainGo.main (Some sample_config) world_two_pages))
  = [Call (token_request sample_config);
     Call (edit_request comment_a "tok" sample_config);
     Call (delete_request comment_a "tok" sample_config);
     Call (edit_request comment_b "tok" sample_config);
     Call (delete_request comment_b "tok" sample_config)]
  /\ sleeps (main_goroutine
               (MainGo.main (Some sample_config) world_two_pages)) = []
  /\ actions (main_goroutine (Part000.main sample_config world_two_pages))
     = [Call (token_request sample_config);
        Call (edit_request comment_a "tok" sample_config);
        Call (delete_request comment_a "tok" sample_config);
        Wait (15 * Second);
        Call (edit_request comment_b "tok" sample_config);
        Call (delete_request comment_b "tok" sample_config);
        Wait (15 * Second)].
Proof. repeat split; reflexivity. Qed.

(** ** C9: the two programs side by side *)

Lemma listLoop_same_stream (p : Config) (cursor : string)
    (replies : list FetchReply) :
  actions (listLoop Stdout p cursor replies)
    = actions (listLoop Stderr p cursor replies)
  /\ received (listLoop Stdout p cursor replies)
     = received (listLoop Stderr p cursor replies)
  /\ closed (listLoop Stdout p cursor replies)
     = closed (listLoop Stderr p cursor replies).
Proof.
  revert cursor. induction replies as [| reply rest IH]; intros cursor;
    [now repeat split |].
  destruct reply as [| | partial | res]; cbn [listLoop];
    try (now repeat split).
  destruct (Nat.eqb (List.length (Children (Data res))) 0
            || String.eqb (RespAfter (Data res)) EmptyString);
    [now repeat split |].
  destruct (IH (RespAfter (Data res))) as (Ha & Hr & Hc).
  cbn [actions received closed].
  rewrite !actions_app, !received_app, !closed_app, Ha, Hr, Hc.
  now repeat split.
Qed.

(** With a token obtained, the two programs send the same requests in the
    same order from each goroutine and end alike; they differ in the pauses
    (and in what they print). *)
Lemma same_requests_with_token (p : Config) (w : World) (tok : string) :
  token_of (token_reply w) = Some tok ->
  requests (main_goroutine (MainGo.main (Some p) w))
    = requests (main_goroutine (Part000.main p w))
  /\ requests (list_goroutine (MainGo.main (Some p) w))
     = requests (list_goroutine (Part000.main p w))
  /\ received (list_goroutine (MainGo.main (Some p) w))
     = received (list_goroutine (Part000.main p w))
  /\ outcome (MainGo.main (Some p) w) = outcome (Part000.main p w).
Proof.
  intros Htok.
  destruct (MainGo_main_run p w) as (Hl & Ha & Ho).
  destruct (Part000_main_with_token p w tok Htok) as (Hl' & Ha' & Ho').
  destruct (MainGo_newAccessToken_spec p (token_reply w)) as [_ Hv].
  rewrite Htok in Hv. rewrite Hv in Ha. cbn [fst] in Ha.
  destruct (listLoop_same_stream p EmptyString (listing w))
    as (Hsa & Hsr & Hsc).
  assert (Hrecv : received (MainGo.List p (listing w))
                  = received (Part000.List p (listing w)))
    by exact Hsr.
  assert (Hclosed : closed (MainGo.List p (listing w))
                    = closed (Part000.List p (listing w)))
    by exact Hsc.
  unfold requests. rewrite Ha, Ha', Hl, Hl', Ho, Ho', Hrecv, Hclosed.
  repeat split.
  - cbn [calls]. now rewrite calls_paced.
  - unfold MainGo.List, Part000.List, List_with. cbn [actions].
    now rewrite Hsa.
Qed.

(** C9 at failing inputs.  On the same policy and the same replies of the
    platform the two programs do not act alike.  With a token and two
    eligible comments, [part_000] waits after each comment and
    [src/main.go] never does; with a failed token exchange, [part_000] sends
    the token request only and exits with status 1, while [src/main.go]
    lists, edits and deletes and returns with status 0. *)
Theorem C9_programs_differ_in_pacing_and_fatal_handling :
  sleeps (main_goroutine (MainGo.main (Some sample_config) world_two_pages))
    = []
  /\ sleeps (main_goroutine (Part000.main sample_config world_two_pages))
     = [15 * Second; 15 * Second]
  /\ requests (main_goroutine (Part000.main sample_config world_no_token))
     = [token_request sample_config]
  /\ requests (main_goroutine
                 (MainGo.main (Some sample_config) world_no_token))
     = [token_request sample_config;
        edit_request comment_a EmptyString sample_config;
        delete_request comment_a EmptyString sample_config;
        edit_request comment_b EmptyString sample_config;
        delete_request comment_b EmptyString sample_config]
  /\ outcome (Part000.main sample_config world_no_token) = Exited 1
  /\ outcome (MainGo.main (Some sample_config) world_no_token) = Exited 0.
Proof. repeat split; reflexivity. Qed.

(** * Further properties of the code *)

(** ** [Fullname] *)

(** X1.  [Fullname] tells comments apart exactly as their identifiers do:
    two comments have the same full name if and only if they have the same
    [ID]; a full name starts with the type tag [t1_] and is never the bare
    identifier. *)
Theorem Fullname_is_injective_on_identifiers (c c' : Comment) :
  (Fullname c = Fullname c' <-> ID c = ID c')
  /\ String.prefix "t1_" (Fullname c) = true
  /\ Fullname c <> ID c.
Proof.
  unfold Fullname. repeat split.
  - intros H. simpl in H. now injection H.
  - intros ->. reflexivity.
  - apply prefix_correct. simpl. destruct (ID c); reflexivity.
  - intros H. apply (f_equal String.length) in H. simpl in H. lia.
Qed.

(** ** The filter is monotone in the policy *)

Lemma After_earlier_cutoff (t u u' : Time) :
  AtOrBefore u' u -> After t u = true -> After t u' = true.
Proof.
  intros Hu Ht. apply After_iff. apply After_iff in Ht.
  unfold AtOrBefore in *. lia.
Qed.

Lemma incl_mem (x : string) (l l' : list string) :
  incl l l' -> mem x l = true -> mem x l' = true.
Proof. intros Hincl H. apply mem_In. apply Hincl. now apply mem_In. Qed.

Lemma decide_monotone (c : Comment) (p p' : Config) :
  incl (SkipCommentIDs p) (SkipCommentIDs p') ->
  incl (SkipSubreddits p) (SkipSubreddits p') ->
  AtOrBefore (Before p') (Before p) ->
  MaxScore p' <= MaxScore p ->
  is_keep (decide c p) = false -> is_keep (decide c p') = false.
Proof.
  intros Hids Hsubs Hcut Hmax. unfold decide.
  destruct (mem (ID c) (SkipCommentIDs p)) eqn:E1.
  { now rewrite (incl_mem _ _ _ Hids E1). }
  destruct (mem (ID c) (SkipCommentIDs p')); [reflexivity |].
  destruct (mem (Subreddit c) (SkipSubreddits p)) eqn:E2.
  { now rewrite (incl_mem _ _ _ Hsubs E2). }
  destruct (mem (Subreddit c) (SkipSubreddits p')); [reflexivity |].
  destruct (After (Created c) (Before p)) eqn:E3.
  { now rewrite (After_earlier_cutoff _ _ _ Hcut E3). }
  destruct (After (Created c) (Before p')); [reflexivity |].
  destruct (Z.ltb_spec (MaxScore p) (Score (Src c))) as [E4 | E4];
    [| discriminate].
  destruct (Z.ltb_spec (MaxScore p') (Score (Src c))); [reflexivity | lia].
Qed.

(** X2.  A policy that preserves more never removes more: when the lists of
    preserved identifiers and sub-communities grow, the cutoff does not move
    later and the maximum score does not rise, a comment that [ShouldSkip]
    skipped is still skipped (in both programs), and [Edit] and [Delete] of
    both programs send no request for it, whatever the token and whatever the
    platform would answer. *)
Theorem preserving_more_never_removes_more (c : Comment) (p p' : Config)
    (tok : string) (er : EditReply) (dr : DeleteReply)
    (Hids : incl (SkipCommentIDs p) (SkipCommentIDs p'))
    (Hsubs : incl (SkipSubreddits p) (SkipSubreddits p'))
    (Hcut : AtOrBefore (Before p') (Before p))
    (Hmax : MaxScore p' <= MaxScore p)
    (Hskip : value (MainGo.ShouldSkip c p) = true) :
  value (MainGo.ShouldSkip c p') = true
  /\ value (Part000.ShouldSkip c p') = true
  /\ requests (events (MainGo.Edit c tok p' er)) = []
  /\ requests (events (MainGo.Delete c tok p' dr)) = []
  /\ requests (events (Part000.Edit c tok p' er)) = []
  /\ requests (events (Part000.Delete c tok p' dr)) = [].
Proof.
  destruct (MainGo_ShouldSkip_spec c p) as (Hv & _).
  destruct (MainGo_ShouldSkip_spec c p') as (Hv' & _).
  destruct (Part000_ShouldSkip_spec c p') as (Hv'' & _).
  rewrite Hv in Hskip. apply negb_true_iff in Hskip.
  pose proof (decide_monotone c p p' Hids Hsubs Hcut Hmax Hskip) as Hk.
  assert (Hkept : kept c p' = false) by (unfold kept; now rewrite Hk).
  rewrite Hv', Hv'', Hk. unfold requests.
  rewrite MainGo_Edit_actions, MainGo_Delete_actions,
    Part000_Edit_actions, Part000_Delete_actions, Hkept.
  now repeat split.
Qed.

(** [comment_hot] is skipped for its score by [sample_config]; the stricter
    policy skips it too, and no edit is sent for it. *)
Lemma preserving_more_witness :
  value (MainGo.ShouldSkip comment_hot sample_config) = true
  /\ value (MainGo.ShouldSkip comment_hot stricter_config) = true
  /\ value (Part000.ShouldSkip comment_hot stricter_config) = true
  /\ requests (events (MainGo.Edit comment_hot "tok" stricter_config
                         (good_edit 0))) = [].
Proof.
  assert (Hids : incl (SkipCommentIDs sample_config)
                   (SkipCommentIDs stricter_config))
    by (intros x [<- | []]; simpl; auto).
  assert (Hsubs : incl (SkipSubreddits sample_config)
                    (SkipSubreddits stricter_config))
    by (intros x [<- | []]; simpl; auto).
  assert (Hcut : AtOrBefore (Before stricter_config) (Before sample_config))
    by (left; reflexivity).
  assert (Hmax : MaxScore stricter_config <= MaxScore sample_config)
    by (simpl; lia).
  destruct (preserving_more_never_removes_more comment_hot sample_config
              stricter_config "tok" (good_edit 0) (good_delete 0)
              Hids Hsubs Hcut Hmax eq_refl)
    as (HM & HP & HE & _).
  exact (conj eq_refl (conj HM (conj HP HE))).
Defined.

(** ** The date check is monotone in the timestamp *)

Lemma wrap64_small (x : Z) :
  min_int64 <= x <= max_int64 -> wrap64 x = x.
Proof.
  unfold wrap64, min_int64, max_int64. intros H.
  rewrite Z.mod_small by lia. lia.
Qed.

Lemma quot_monotone (a b c d : Z) :
  0 < b -> 0 < d -> a * d <= c * b -> Z.quot a b <= Z.quot c d.
Proof.
  intros Hb Hd Hle.
  pose proof (Z.quot_rem' a b) as Ha. pose proof (Z.quot_rem' c d) as Hc.
  destruct (Z.le_gt_cases 0 a) as [Ha0 | Ha0].
  - pose proof (Z.rem_bound_pos a b Ha0 Hb) as Hra.
    assert (Hqa : 0 <= Z.quot a b) by (apply Z.quot_pos; lia).
    destruct (Z.le_gt_cases 0 c) as [Hc0 | Hc0].
    + pose proof (Z.rem_bound_pos c d Hc0 Hd) as Hrc.
      assert (Hqc : 0 <= Z.quot c d) by (apply Z.quot_pos; lia).
      nia.
    + nia.
  - assert (Hra : - b < Z.rem a b <= 0).
    { pose proof (Z.rem_bound_pos (- a) b ltac:(lia) Hb) as H.
      rewrite Z.rem_opp_l in H by lia. lia. }
    assert (Hqa : Z.quot a b <= 0).
    { pose proof (Z.quot_pos (- a) b ltac:(lia) Hb) as H.
      rewrite Z.quot_opp_l in H by lia. lia. }
    destruct (Z.le_gt_cases 0 c) as [Hc0 | Hc0].
    + assert (Hqc : 0 <= Z.quot c d) by (apply Z.quot_pos; lia). lia.
    + assert (Hrc : - d < Z.rem c d <= 0).
      { pose proof (Z.rem_bound_pos (- c) d ltac:(lia) Hd) as H.
        rewrite Z.rem_opp_l in H by lia. lia. }
      nia.
Qed.

(** X3.  The date check follows the order of the timestamps.  For two
    comments with finite timestamps, the first not above the second, whose
    integer parts [int64] holds and [time.Unix] takes without overflow: when
    the later comment is not skipped by the date check, the earlier one is
    not skipped by it either. *)
Theorem date_check_follows_the_timestamps (c c' : Comment) (p : Config)
    (z z' : Z)
    (Hz : float_trunc (CreatedUTC (Src c)) = Some z)
    (Hz' : float_trunc (CreatedUTC (Src c')) = Some z')
    (Hle : float_num (CreatedUTC (Src c)) * float_den (CreatedUTC (Src c'))
           <= float_num (CreatedUTC (Src c')) * float_den (CreatedUTC (Src c)))
    (Hlo : min_int64 <= z)
    (Hhi : z' <= max_int64 - unixToInternal)
    (Hlater : After (Created c') (Before p) = false) :
  z <= z' /\ After (Created c) (Before p) = false.
Proof.
  assert (Hzz : z <= z').
  { rewrite (float_trunc_quot _ _ Hz), (float_trunc_quot _ _ Hz').
    apply quot_monotone; auto using float_den_pos. }
  split; [exact Hzz |].
  assert (Hu : 0 < unixToInternal) by reflexivity.
  assert (Hmax : max_int64 = 9223372036854775807) by reflexivity.
  assert (Hmin : min_int64 = -9223372036854775808) by reflexivity.
  assert (Hc : Created c = {| sec := z + unixToInternal; nsec := 0 |}).
  { unfold Created, int64_of_float64. rewrite Hz.
    destruct (Z.leb_spec min_int64 z); [| lia].
    destruct (Z.leb_spec z max_int64); [| lia].
    cbn [andb]. rewrite Unix_whole_seconds, wrap64_small by lia.
    reflexivity. }
  assert (Hc' : Created c' = {| sec := z' + unixToInternal; nsec := 0 |}).
  { unfold Created, int64_of_float64. rewrite Hz'.
    destruct (Z.leb_spec min_int64 z'); [| lia].
    destruct (Z.leb_spec z' max_int64); [| lia].
    cbn [andb]. rewrite Unix_whole_seconds, wrap64_small by lia.
    reflexivity. }
  apply After_false_iff. apply After_false_iff in Hlater.
  rewrite Hc' in Hlater. rewrite Hc. unfold AtOrBefore in *. simpl in *.
  lia.
Qed.

(** 1300000000.25 is not above 1300000000.75; with the cutoff at second
    1300000000 neither comment is skipped by the date check. *)
Lemma date_check_witness :
  After (Created comment_a) (Before boundary_config) = false
  /\ After (Created comment_b) (Before boundary_config) = false.
Proof.
  assert (Hle : float_num stamp_b * float_den stamp_a
                <= float_num stamp_a * float_den stamp_b)
    by (vm_compute; discriminate).
  assert (Hlo : min_int64 <= 1300000000) by (vm_compute; discriminate).
  assert (Hhi : 1300000000 <= max_int64 - unixToInternal)
    by (vm_compute; discriminate).
  destruct (date_check_follows_the_timestamps comment_b comment_a
              boundary_config 1300000000 1300000000 eq_refl eq_refl
              Hle Hlo Hhi eq_refl) as [_ H].
  exact (conj eq_refl H).
Defined.

(** ** What [Edit] and [Delete] print *)

Lemma printed_app (t u : list Event) :
  printed (t ++ u) = printed t ++ printed u.
Proof.
  induction t as [| e t IH]; simpl; [reflexivity |].
  destruct e; simpl; now rewrite ?IH.
Qed.

Lemma MainGo_rangeSkipSubreddits_lines (subs : list string) (c : Comment) :
  Forall (fun m => filter_line m = true)
    (printed (events (MainGo.rangeSkipSubreddits subs c))).
Proof.
  induction subs as [| s rest IH]; [constructor |].
  cbn [MainGo.rangeSkipSubreddits]. rewrite events_bind.
  cbn [emit events snd value fst app printed].
  constructor; [reflexivity |].
  destruct (String.eqb s (Subreddit c)); [| exact IH].
  repeat constructor.
Qed.

Lemma MainGo_ShouldSkip_lines (c : Comment) (p : Config) :
  Forall (fun m => filter_line m = true)
    (printed (events (MainGo.ShouldSkip c p))).
Proof.
  unfold MainGo.ShouldSkip. rewrite events_bind, printed_app.
  apply Forall_app. split.
  - rewrite MainGo_rangeSkipCommentIDs. cbn [events snd].
    destruct (mem (ID c) (SkipCommentIDs p)); repeat constructor.
  - destruct (value (MainGo.rangeSkipCommentIDs (SkipCommentIDs p) c));
      [constructor |].
    rewrite events_bind, printed_app. apply Forall_app. split.
    + apply MainGo_rangeSkipSubreddits_lines.
    + destruct (value (MainGo.rangeSkipSubreddits (SkipSubreddits p) c));
        [constructor |].
      destruct (After (Created c) (Before p)); [repeat constructor |].
      destruct (MaxScore p <? Score (Src c)); repeat constructor.
Qed.

Lemma Part000_ShouldSkip_lines (c : Comment) (p : Config) :
  Forall (fun m => filter_line m = true)
    (printed (events (Part000.ShouldSkip c p))).
Proof.
  unfold Part000.ShouldSkip.
  rewrite Part000_rangeSkipCommentIDs, Part000_rangeSkipSubreddits.
  run_writer.
  destruct (mem (ID c) (SkipCommentIDs p)); [repeat constructor |].
  destruct (mem (Subreddit c) (SkipSubreddits p)); [repeat constructor |].
  destruct (After (Created c) (Before p)); [repeat constructor |].
  destruct (MaxScore p <? Score (Src c)); repeat constructor.
Qed.

Lemma not_a_filter_line (m : Msg) (l : list Msg) :
  filter_line m = false -> Forall (fun m => filter_line m = true) l ->
  ~ In m l.
Proof.
  intros Hm Hl Hin. rewrite Forall_forall in Hl. apply Hl in Hin. congruence.
Qed.

Lemma reasons_printed (t : list Event) :
  Forall (fun m => reason_of m = None) (printed t) -> reasons t = [].
Proof.
  induction t as [| e t IH]; [reflexivity |].
  destruct e; simpl; auto;
    intros H; inversion H as [| ? ? Hm Ht]; subst; rewrite Hm; auto.
Qed.

Ltac tail_of_writer :=
  repeat match goal with
         | |- context [if ?b then _ else _] => destruct b
         | |- context [match ?r with EditTransportError => _ | _ => _ end] =>
             destruct r
         | |- context [match ?r with DeleteTransportError => _ | _ => _ end] =>
             destruct r
         end;
  simpl.

Lemma MainGo_Edit_reasons (c : Comment) (tok : string) (p : Config)
    (er : EditReply) :
  reasons (events (MainGo.Edit c tok p er))
  = if is_keep (decide c p) then [] else [decide c p].
Proof.
  unfold MainGo.Edit. rewrite events_bind, reasons_app.
  destruct (MainGo_ShouldSkip_spec c p) as (Hv & Hr & _). rewrite Hv, Hr.
  destruct (is_keep (decide c p)), (DryRun p); simpl;
    tail_of_writer; reflexivity.
Qed.

Lemma MainGo_Delete_reasons (c : Comment) (tok : string) (p : Config)
    (dr : DeleteReply) :
  reasons (events (MainGo.Delete c tok p dr))
  = if is_keep (decide c p) then [] else [decide c p].
Proof.
  unfold MainGo.Delete. rewrite events_bind, reasons_app.
  destruct (MainGo_ShouldSkip_spec c p) as (Hv & Hr & _). rewrite Hv, Hr.
  destruct (is_keep (decide c p)), (DryRun p); simpl;
    tail_of_writer; reflexivity.
Qed.

Lemma Part000_Edit_reasons (c : Comment) (tok : string) (p : Config)
    (er : EditReply) :
  reasons (events (Part000.Edit c tok p er))
  = if is_keep (decide c p) then [] else [decide c p].
Proof.
  unfold Part000.Edit. rewrite !events_bind, !reasons_app.
  destruct (Part000_ShouldSkip_spec c p) as (Hv & Hr & _). rewrite Hv, Hr.
  destruct (is_keep (decide c p)), (DryRun p); simpl;
    tail_of_writer; reflexivity.
Qed.

Lemma Part000_Delete_reasons (c : Comment) (tok : string) (p : Config)
    (dr : DeleteReply) :
  reasons (events (Part000.Delete c tok p dr))
  = if is_keep (decide c p) then [] else [decide c p].
Proof.
  unfold Part000.Delete. rewrite !events_bind, !reasons_app.
  destruct (Part000_ShouldSkip_spec c p) as (Hv & Hr & _). rewrite Hv, Hr.
  destruct (is_keep (decide c p)), (DryRun p); simpl;
    tail_of_writer; reflexivity.
Qed.

(** X4.  The filter runs twice for every comment, once in [Edit] and once
    in [Delete]: in both programs the loop of [main] prints the reason of a
    skipped comment twice, and no reason for a comment that is kept. *)
Theorem every_skip_reason_is_printed_twice (w : World) (tok : string)
    (p : Config) (n : nat) (cs : list Comment) :
  reasons (events (MainGo.rangeList w tok p n cs))
    = flat_map (reasons_of_comment p) cs
  /\ reasons (events (Part000.rangeList w tok p n cs))
     = flat_map (reasons_of_comment p) cs.
Proof.
  split; revert n; induction cs as [| c cs IH]; intros n;
    try reflexivity.
  - cbn [MainGo.rangeList flat_map].
    rewrite !events_bind, !reasons_app, IH.
    rewrite MainGo_Edit_reasons, MainGo_Delete_reasons.
    unfold reasons_of_comment. now destruct (is_keep (decide c p)).
  - cbn [Part000.rangeList flat_map].
    rewrite !events_bind, !reasons_app, IH.
    rewrite Part000_Edit_reasons, Part000_Delete_reasons.
    unfold reasons_of_comment. now destruct (is_keep (decide c p)).
Qed.

Lemma kept_negb (c : Comment) (p : Config) :
  negb (is_keep (decide c p)) || DryRun p = negb (kept c p).
Proof. unfold kept. now destruct (is_keep (decide c p)), (DryRun p). Qed.

(** X5.  What the output says about a comment.  [src/main.go] prints
    [Editing...] and [Deleting...] exactly for the comments it sends the
    calls for, and its line about the dry run or the skip exactly for the
    others.  [part_000] prints [Editing...] and [Deleting...] for every
    comment, also when the filter skips it or the run is a dry run and no
    call is made. *)
Theorem what_Edit_and_Delete_print (c : Comment) (tok : string)
    (p : Config) (er : EditReply) (dr : DeleteReply) :
  (In MsgEditing (printed (events (MainGo.Edit c tok p er)))
     <-> kept c p = true)
  /\ (In MsgDeleting (printed (events (MainGo.Delete c tok p dr)))
      <-> kept c p = true)
  /\ (In MsgDryRunOrSkipped (printed (events (MainGo.Delete c tok p dr)))
      <-> kept c p = false)
  /\ In MsgEditing (printed (events (Part000.Edit c tok p er)))
  /\ In MsgDeleting (printed (events (Part000.Delete c tok p dr))).
Proof.
  pose proof (MainGo_ShouldSkip_lines c p) as HL.
  destruct (MainGo_ShouldSkip_spec c p) as (Hv & _).
  assert (HE : ~ In MsgEditing (printed (events (MainGo.ShouldSkip c p))))
    by now apply not_a_filter_line.
  assert (HD : ~ In MsgDeleting (printed (events (MainGo.ShouldSkip c p))))
    by now apply not_a_filter_line.
  assert (HS : ~ In MsgDryRunOrSkipped
                 (printed (events (MainGo.ShouldSkip c p))))
    by now apply not_a_filter_line.
  unfold MainGo.Edit, MainGo.Delete, Part000.Edit, Part000.Delete.
  rewrite !events_bind, !printed_app, Hv, kept_negb.
  split; [| split; [| split; [| split]]].
  - rewrite in_app_iff. destruct (kept c p); cbn [negb];
      rewrite ?events_bind;
      cbn [emit ret events value fst snd printed app In].
    + split; [reflexivity | intros _; right; now left].
    + split; [intros [H | []]; contradiction | discriminate].
  - rewrite in_app_iff. destruct (kept c p); cbn [negb];
      rewrite ?events_bind;
      cbn [emit ret events value fst snd printed app In].
    + split; [reflexivity | intros _; right; now left].
    + split; [intros [H | [H | []]]; [contradiction | discriminate]
             | discriminate].
  - rewrite in_app_iff. destruct (kept c p); cbn [negb];
      rewrite ?events_bind;
      cbn [emit ret events value fst snd printed app In].
    + split; [| discriminate].
      intros [H | [H | H]]; [contradiction | discriminate |].
      destruct dr; simpl in H; intuition discriminate.
    + split; [reflexivity | intros _; right; now left].
  - cbn [emit events snd printed app In]. now left.
  - cbn [emit events snd printed app In]. now left.
Qed.

(** ** The producer on any script of replies *)

Lemma map_Send_children_closed (l : list Child) :
  closed (map (fun child => Send (ChildData child)) l) = false.
Proof. induction l as [| ch l IH]; simpl; [reflexivity | exact IH]. Qed.

Lemma after_close_app (t u : list Event) :
  after_close (t ++ u)
  = if closed t then after_close t ++ u else after_close u.
Proof.
  induction t as [| e t IH]; simpl; [reflexivity |].
  destruct e; simpl; auto.
Qed.

Lemma listLoop_closed (say : Msg -> Event) (p : Config) (cursor : string)
    (replies : list FetchReply) :
  say = Stdout \/ say = Stderr ->
  closed (listLoop say p cursor replies) = negb (forallb continuing replies)
  /\ after_close (listLoop say p cursor replies) = [].
Proof.
  intros Hsay. revert cursor.
  induction replies as [| reply rest IH]; intros cursor; [now split |].
  destruct reply as [| | partial | res]; cbn [listLoop forallb continuing];
    try (destruct Hsay as [-> | ->]; now split).
  cbn [closed after_close].
  rewrite closed_app, after_close_app, map_Send_children_closed.
  unfold terminal. cbn [orb].
  destruct (Nat.eqb (List.length (Children (Data res))) 0
            || String.eqb (RespAfter (Data res)) EmptyString).
  - now split.
  - cbn [negb andb]. apply IH.
Qed.

Lemma List_closed (p : Config) (replies : list FetchReply) :
  closed (MainGo.List p replies) = negb (forallb continuing replies)
  /\ closed (Part000.List p replies) = negb (forallb continuing replies).
Proof.
  split.
  - change (closed (listLoop Stdout p EmptyString replies)
            = negb (forallb continuing replies)).
    apply listLoop_closed. now left.
  - change (closed (listLoop Stderr p EmptyString replies)
            = negb (forallb continuing replies)).
    apply listLoop_closed. now right.
Qed.

(** X6.  The producer closes the channel exactly when some reply of the
    script is not a page that asks for more: a failed request, a failed
    fetch, a body that does not decode, a page without comments or a page
    without cursor.  As long as every reply is a page with comments and a
    cursor, the channel stays open and [main] stays in its loop. *)
Theorem stream_closes_at_the_first_reply_that_does_not_continue
    (p : Config) (replies : list FetchReply) :
  closed (MainGo.List p replies) = negb (forallb continuing replies)
  /\ closed (Part000.List p replies) = negb (forallb continuing replies).
Proof. exact (List_closed p replies). Qed.

(** X7.  Closing the channel is the last thing the producer does: in the
    trace of [List], for every script of replies, nothing comes after the
    first [Close].  So the producer never sends on a closed channel, never
    closes it twice and sends no request once it is closed. *)
Theorem nothing_follows_the_close (p : Config) (replies : list FetchReply) :
  after_close (MainGo.List p replies) = []
  /\ after_close (Part000.List p replies) = [].
Proof.
  split.
  - change (after_close (listLoop Stdout p EmptyString replies) = []).
    apply listLoop_closed. now left.
  - change (after_close (listLoop Stderr p EmptyString replies) = []).
    apply listLoop_closed. now right.
Qed.

Lemma listLoop_extends (say : Msg -> Event) (p : Config) (cursor : string)
    (replies more : list FetchReply) :
  say = Stdout \/ say = Stderr ->
  exists suffix,
    listLoop say p cursor (replies ++ more)
    = listLoop say p cursor replies ++ suffix
    /\ (closed (listLoop say p cursor replies) = true -> suffix = []).
Proof.
  intros Hsay. revert cursor.
  induction replies as [| reply rest IH]; intros cursor.
  - exists (listLoop say p cursor more). split; [reflexivity | discriminate].
  - destruct reply as [| | partial | res]; cbn [app listLoop];
      try (exists []; split; reflexivity).
    destruct (Nat.eqb (List.length (Children (Data res))) 0
              || String.eqb (RespAfter (Data res)) EmptyString).
    + exists []. split; [now rewrite app_nil_r | reflexivity].
    + destruct (IH (RespAfter (Data res))) as (suffix & Heq & Hnil).
      exists suffix. split.
      * rewrite Heq. now rewrite <- !app_assoc.
      * cbn [closed]. rewrite closed_app, map_Send_children_closed.
        exact Hnil.
Qed.

(** X8.  The producer reads the script in order and stops reading at the
    close.  For every script and every continuation of it, the trace of
    [List] (of either program) for the longer script starts with the trace
    for the script; and when the script closes the channel, whatever the
    platform would answer next changes nothing: the two traces are the same,
    so no further reply is asked for. *)
Theorem replies_after_the_close_are_never_asked_for (p : Config)
    (replies more : list FetchReply) :
  (exists suffix,
     MainGo.List p (replies ++ more) = MainGo.List p replies ++ suffix)
  /\ (exists suffix,
        Part000.List p (replies ++ more) = Part000.List p replies ++ suffix)
  /\ (closed (MainGo.List p replies) = true ->
      MainGo.List p (replies ++ more) = MainGo.List p replies)
  /\ (closed (Part000.List p replies) = true ->
      Part000.List p (replies ++ more) = Part000.List p replies).
Proof.
  unfold MainGo.List, Part000.List, List_with. cbn [closed].
  destruct (listLoop_extends Stdout p EmptyString replies more
              (or_introl eq_refl)) as (s1 & H1 & N1).
  destruct (listLoop_extends Stderr p EmptyString replies more
              (or_intror eq_refl)) as (s2 & H2 & N2).
  rewrite H1, H2. split; [| split; [| split]].
  - now exists s1.
  - now exists s2.
  - intros Hc. now rewrite (N1 Hc), app_nil_r.
  - intros Hc. now rewrite (N2 Hc), app_nil_r.
Qed.

(** After a failed fetch a page that would have come is not fetched. *)
Lemma failed_fetch_ends_the_script :
  closed (MainGo.List sample_config [FetchTransportError]) = true
  /\ MainGo.List sample_config [FetchTransportError; FetchDecoded page_one]
     = MainGo.List sample_config [FetchTransportError].
Proof.
  destruct (replies_after_the_close_are_never_asked_for sample_config
              [FetchTransportError] [FetchDecoded page_one])
    as (_ & _ & H & _).
  exact (conj eq_refl (H eq_refl)).
Defined.

(** ** The requests of a run *)










(** ** How a run ends *)

(** X11.  How a run of [src/main.go] ends, whatever the token endpoint and
    the edit and delete endpoints answer.  Without a configuration it
    panics before it does anything; with one it returns from [main], with
    status 0, as soon as the producer closes the channel, that is when some
    listing reply does not continue, and is blocked in its loop
    otherwise. *)
Theorem how_a_run_of_main_go_ends (loaded : option Config) (w : World) :
  outcome (MainGo.main loaded w)
  = match loaded with
    | None => Panicked
    | Some _ =>
        if forallb continuing (listing w) then Blocked else Exited 0
    end
  /\ (loaded = None ->
      main_goroutine (MainGo.main loaded w) = []
      /\ list_goroutine (MainGo.main loaded w) = []).
Proof.
  destruct loaded as [p |].
  - destruct (MainGo_main_run p w) as (_ & _ & Ho).
    destruct (List_closed p (listing w)) as [Hc _].
    rewrite Ho, Hc. split; [| discriminate].
    now destruct (forallb continuing (listing w)).
  - now repeat split.
Qed.

(** X12.  How a run of [part_000] ends.  When the token exchange gives no
    token the run ends with status 1 after the token request, and the
    producer is never started; otherwise, also when the token obtained is the
    empty string, it ends as a run of [src/main.go] does: status 0 once a
    listing reply does not continue, blocked in the loop before. *)
Theorem how_a_run_of_part_000_ends (p : Config) (w : World) :
  outcome (Part000.main p w)
  = match token_of (token_reply w) with
    | None => Exited 1
    | Some _ =>
        if forallb continuing (listing w) then Blocked else Exited 0
    end
  /\ (token_of (token_reply w) = None ->
      requests (main_goroutine (Part000.main p w)) = [token_request p]
      /\ list_goroutine (Part000.main p w) = []).
Proof.
  destruct (token_of (token_reply w)) as [tok |] eqn:Htok.
  - destruct (Part000_main_with_token p w tok Htok) as (_ & _ & Ho).
    destruct (List_closed p (listing w)) as [_ Hc].
    rewrite Ho, Hc. split; [| discriminate].
    now destruct (forallb continuing (listing w)).
  - rewrite Part000_main_without_token by assumption. now repeat split.
Qed.

(** X13.  [part_000] pauses once for every comment it receives, kept or
    not, dry run or not: a run that obtained a token sleeps 15 seconds as
    many times as the producer delivered comments, and a run without token
    never sleeps. *)
Theorem part_000_sleeps_once_per_received_comment (p : Config) (w : World) :
  sleeps (main_goroutine (Part000.main p w))
  = match token_of (token_reply w) with
    | None => []
    | Some _ =>
        repeat (15 * Second)
          (List.length (received (list_goroutine (Part000.main p w))))
    end.
Proof.
  destruct (token_of (token_reply w)) as [tok |] eqn:Htok.
  - destruct (Part000_main_with_token p w tok Htok) as (Hl & Ha & _).
    unfold sleeps. rewrite Ha, Hl. cbn [waits]. apply waits_paced_workflow.
  - rewrite Part000_main_without_token by assumption. reflexivity.
Qed.

(** ** Loading the configuration *)

(** X14.  [configLoader] reads two variables of the environment and nothing
    else of it: hosts that agree on [REDDIT_PASSWORD], on
    [REDDIT_CLIENT_SECRET] and on the date parser load the same
    configuration or fail alike.  A variable that is set wins over the file,
    also when it is set to the empty string. *)
Theorem configLoader_reads_two_variables (h h' : Host)
    (fs : string -> FileReply RawConfig) (filePath : string)
    (Hpw : lookup_env h "REDDIT_PASSWORD" = lookup_env h' "REDDIT_PASSWORD")
    (Hsec : lookup_env h "REDDIT_CLIENT_SECRET"
            = lookup_env h' "REDDIT_CLIENT_SECRET")
    (Hparse : forall s, ParseRFC3339 h s = ParseRFC3339 h' s) :
  configLoader h fs filePath = configLoader h' fs filePath
  /\ forall config : Config,
       configLoader h fs filePath = inr config ->
       (forall pw, lookup_env h "REDDIT_PASSWORD" = Some pw ->
                   Password config = pw)
       /\ (forall secret, lookup_env h "REDDIT_CLIENT_SECRET" = Some secret ->
                          ClientSecret config = secret).
Proof.
  unfold configLoader, getEnvOrDefault. rewrite <- Hpw, <- Hsec.
  split.
  - destruct (fs filePath) as [| | | raw]; try reflexivity.
    now rewrite Hparse.
  - intros config. destruct (fs filePath) as [| | | raw]; try discriminate.
    destruct (ParseRFC3339 h (RawBefore raw)); [| discriminate].
    intros [= <-]. cbn [Password ClientSecret].
    split; intros v ->; reflexivity.
Qed.

(** The password is set to the empty string in the environment: the loaded
    password is empty although the file has one; the client secret, not set,
    is the file's. *)
Lemma configLoader_witness :
  configLoader (host_with [("REDDIT_PASSWORD", EmptyString)]) raw_file
    "config.json"
  = configLoader
      (host_with [("REDDIT_PASSWORD", EmptyString); ("HOME", "/root")])
      raw_file "config.json"
  /\ (exists config,
        configLoader (host_with [("REDDIT_PASSWORD", EmptyString)]) raw_file
          "config.json" = inr config
        /\ Password config = EmptyString
        /\ ClientSecret config = "secret_from_file").
Proof.
  destruct (configLoader_reads_two_variables
              (host_with [("REDDIT_PASSWORD", EmptyString)])
              (host_with [("REDDIT_PASSWORD", EmptyString);
                          ("HOME", "/root")])
              raw_file "config.json" eq_refl eq_refl (fun s => eq_refl))
    as [Heq Hsec].
  split; [exact Heq |].
  eexists. split; [reflexivity |].
  split; [| reflexivity].
  exact (proj1 (Hsec _ eq_refl) EmptyString eq_refl).
Defined.

(** X15.  A configuration that cannot be loaded makes [src/main.go] panic,
    and only that does: the run panics exactly when [config.json] does not
    open or decode or its [Before] is not an RFC 3339 date, and then nothing
    has been printed or sent, not even the token request. *)
Theorem main_go_panics_exactly_on_a_bad_configuration (h : Host)
    (fs : string -> FileReply RawConfig) (w : World) :
  (outcome (MainGo_run h fs w) = Panicked
   <-> forall raw, fs "config.json" = FileDecoded raw ->
                   ParseRFC3339 h (RawBefore raw) = None)
  /\ (outcome (MainGo_run h fs w) = Panicked ->
      main_goroutine (MainGo_run h fs w) = []
      /\ list_goroutine (MainGo_run h fs w) = []).
Proof.
  unfold MainGo_run, configLoader.
  destruct (fs "config.json") as [| | | raw] eqn:Hfile;
    try (split; [split; [discriminate | reflexivity] | now split]).
  destruct (ParseRFC3339 h (RawBefore raw)) as [before |] eqn:Hparse.
  - match goal with
    | |- context [MainGo.main (Some ?c) w] =>
        destruct (MainGo_main_run c w) as (_ & _ & Ho); rewrite Ho
    end.
    destruct (closed _).
    + split; [split; [discriminate |] | discriminate].
      intros H. specialize (H raw eq_refl). congruence.
    + split; [split; [discriminate |] | discriminate].
      intros H. specialize (H raw eq_refl). congruence.
  - split; [split; [| reflexivity] | now split].
    intros _ raw' [= <-]. exact Hparse.
Qed.

(** X16.  The credentials of the token request are the loaded ones: when
    [config.json] loads, the first request of the run is the token request
    with the file's client identifier and user name, and with the client
    secret and the password of the environment where it sets them, of the
    file where it does not. *)
Theorem token_request_carries_the_loaded_credentials (h : Host)
    (fs : string -> FileReply RawConfig) (w : World) (raw : RawConfig)
    (before : Time)
    (Hfile : fs "config.json" = FileDecoded raw)
    (Hparse : ParseRFC3339 h (RawBefore raw) = Some before) :
  exists first rest,
    requests (main_goroutine (MainGo_run h fs w)) = first :: rest
    /\ url first = "https://www.reddit.com/api/v1/access_token"
    /\ auth first
       = Basic (RawClientID raw)
           (getEnvOrDefault h "REDDIT_CLIENT_SECRET" (RawClientSecret raw))
    /\ form first
       = [("grant_type", "password"); ("username", RawUsername raw);
          ("password",
           getEnvOrDefault h "REDDIT_PASSWORD" (RawPassword raw))].
Proof.
  unfold MainGo_run, configLoader. rewrite Hfile, Hparse.
  match goal with
  | |- context [MainGo.main (Some ?c) w] =>
      destruct (MainGo_main_run c w) as (_ & Ha & _)
  end.
  unfold requests. rewrite Ha. cbn [calls].
  eexists. eexists. split; [reflexivity |]. now repeat split.
Qed.

(** The password comes from the environment, the client secret from the
    file. *)
Lemma token_request_witness :
  exists first rest,
    requests (main_goroutine
                (MainGo_run (host_with [("REDDIT_PASSWORD", "from_env")])
                   raw_file world_two_pages)) = first :: rest
    /\ auth first = Basic "123" "secret_from_file"
    /\ form first
       = [("grant_type", "password"); ("username", "snoo");
          ("password", "from_env")].
Proof.
  destruct (token_request_carries_the_loaded_credentials
              (host_with [("REDDIT_PASSWORD", "from_env")]) raw_file
              world_two_pages sample_raw (Unix 1400000000 0)
              eq_refl eq_refl)
    as (first & rest & Hreq & _ & Hauth & Hform).
  exists first, rest. exact (conj Hreq (conj Hauth Hform)).
Defined.

Ltac load_cases h fs filename :=
  unfold LoadConfig;
  destruct (fs filename) as [| | | file_config]; try discriminate;
  destruct (String.eqb_spec (Getenv h "REDDIT_PASSWORD") EmptyString)
    as [Epw | Epw]; try discriminate;
  destruct (String.eqb_spec (Getenv h "REDDIT_CLIENT_SECRET") EmptyString)
    as [Esec | Esec]; try discriminate;
  destruct (Atoi (Getenv h "REDDIT_YEARS_BACK")) as [years |];
    [| destruct (String.eqb (Getenv h "REDDIT_YEARS_BACK") EmptyString);
       try discriminate].

(** X17.  [LoadConfig] never returns a configuration with a secret of the
    file: whenever it returns one, the password and the client secret are
    the non-empty values of [REDDIT_PASSWORD] and [REDDIT_CLIENT_SECRET],
    the dry-run flag is set exactly when [REDDIT_DRY_RUN] is the string
    [true], the cutoff is the clock moved by whole years, and nothing was
    printed. *)
Theorem LoadConfig_takes_the_secrets_from_the_environment (h : Host)
    (fs : string -> FileReply Config) (filename : string) (config : Config)
    (Hload : fst (LoadConfig h fs filename) = inr config) :
  Password config = Getenv h "REDDIT_PASSWORD"
  /\ Password config <> EmptyString
  /\ ClientSecret config = Getenv h "REDDIT_CLIENT_SECRET"
  /\ ClientSecret config <> EmptyString
  /\ DryRun config = String.eqb (Getenv h "REDDIT_DRY_RUN") "true"
  /\ (exists years, Before config = AddDate h (now h) years 0 0)
  /\ snd (LoadConfig h fs filename) = [].
Proof.
  revert Hload. load_cases h fs filename; cbn [fst snd];
    intros [= <-]; cbn [Password ClientSecret DryRun Before];
    repeat split; try assumption; eexists; reflexivity.
Qed.

(** The file gives [foobar] and [456]; the environment gives [pw] and
    [cs], and these are loaded. *)
Lemma LoadConfig_secrets_witness :
  exists config,
    fst (LoadConfig
           (host_with [("REDDIT_PASSWORD", "pw");
                       ("REDDIT_CLIENT_SECRET", "cs")])
           config_file "config.json") = inr config
    /\ Password config = "pw" /\ ClientSecret config = "cs"
    /\ DryRun config = false.
Proof.
  eexists.
  pose proof (LoadConfig_takes_the_secrets_from_the_environment
                (host_with [("REDDIT_PASSWORD", "pw");
                            ("REDDIT_CLIENT_SECRET", "cs")])
                config_file "config.json" _ eq_refl)
    as (Hpw & _ & Hsec & _ & Hdry & _).
  exact (conj eq_refl (conj Hpw (conj Hsec Hdry))).
Defined.

(** X18.  [LoadConfig] returns a configuration exactly when the file
    opens, reads and decodes, [REDDIT_PASSWORD] and [REDDIT_CLIENT_SECRET]
    are both set to non-empty values, and [REDDIT_YEARS_BACK] is unset,
    empty or a decimal number.  Secrets in the file do not help: without
    them in the environment the load fails. *)
Theorem LoadConfig_succeeds_exactly_when (h : Host)
    (fs : string -> FileReply Config) (filename : string) :
  (exists config, fst (LoadConfig h fs filename) = inr config)
  <-> (exists file_config, fs filename = FileDecoded file_config)
      /\ Getenv h "REDDIT_PASSWORD" <> EmptyString
      /\ Getenv h "REDDIT_CLIENT_SECRET" <> EmptyString
      /\ (Getenv h "REDDIT_YEARS_BACK" = EmptyString
          \/ exists n, Atoi (Getenv h "REDDIT_YEARS_BACK") = Some n).
Proof.
  unfold LoadConfig. split.
  - intros [config Hload]. revert Hload.
    destruct (fs filename) as [| | | file_config]; try discriminate.
    destruct (String.eqb_spec (Getenv h "REDDIT_PASSWORD") EmptyString);
      try discriminate.
    destruct (String.eqb_spec (Getenv h "REDDIT_CLIENT_SECRET") EmptyString);
      try discriminate.
    destruct (Atoi (Getenv h "REDDIT_YEARS_BACK")) as [years |].
    + intros _. repeat split; eauto.
    + destruct (String.eqb_spec (Getenv h "REDDIT_YEARS_BACK") EmptyString);
        try discriminate.
      intros _. repeat split; eauto.
  - intros ([file_config ->] & Hpw & Hsec & Hyears).
    destruct (String.eqb_spec (Getenv h "REDDIT_PASSWORD") EmptyString);
      [contradiction |].
    destruct (String.eqb_spec (Getenv h "REDDIT_CLIENT_SECRET") EmptyString);
      [contradiction |].
    destruct Hyears as [-> | [years ->]].
    + cbn [Atoi String.eqb negb fst]. eexists. reflexivity.
    + eexists. reflexivity.
Qed.

Lemma Atoi_empty : Atoi EmptyString = None.
Proof. reflexivity. Qed.

(** X19.  The cutoff of [LoadConfig].  With the file decoded and both
    secrets set: when [REDDIT_YEARS_BACK] is unset or empty the cutoff is the
    clock moved back 11 years; when it is a decimal number [n] the clock is
    moved back [n] years (forward for a negative [n]); any other value is an
    error, reported with one printed line. *)
Theorem LoadConfig_years_back (h : Host) (fs : string -> FileReply Config)
    (filename : string) (file_config : Config)
    (Hfile : fs filename = FileDecoded file_config)
    (Hpw : Getenv h "REDDIT_PASSWORD" <> EmptyString)
    (Hsec : Getenv h "REDDIT_CLIENT_SECRET" <> EmptyString) :
  (Getenv h "REDDIT_YEARS_BACK" = EmptyString ->
   exists config,
     LoadConfig h fs filename = (inr config, [])
     /\ Before config = AddDate h (now h) (-11) 0 0)
  /\ (forall n, Atoi (Getenv h "REDDIT_YEARS_BACK") = Some n ->
      exists config,
        LoadConfig h fs filename = (inr config, [])
        /\ Before config = AddDate h (now h) (wrap64 (- n)) 0 0)
  /\ (Getenv h "REDDIT_YEARS_BACK" <> EmptyString ->
      Atoi (Getenv h "REDDIT_YEARS_BACK") = None ->
      LoadConfig h fs filename = (inl ErrYearsBack, [MsgInvalidYearsBack])).
Proof.
  unfold LoadConfig. rewrite Hfile.
  destruct (String.eqb_spec (Getenv h "REDDIT_PASSWORD") EmptyString);
    [contradiction |].
  destruct (String.eqb_spec (Getenv h "REDDIT_CLIENT_SECRET") EmptyString);
    [contradiction |].
  repeat split.
  - intros ->. rewrite Atoi_empty. cbn [String.eqb negb].
    eexists. split; reflexivity.
  - intros years ->. eexists. split; reflexivity.
  - intros Hne ->.
    destruct (String.eqb_spec (Getenv h "REDDIT_YEARS_BACK") EmptyString);
      [contradiction | reflexivity].
Qed.

(** The three cases on the sample host, whose clock stands at second
    1700000000 after the epoch of [time.Unix] and whose years have 365 days:
    no variable, [7], [-3] and [seven]. *)
Lemma LoadConfig_years_back_witness :
  (exists config,
     LoadConfig (host_with [("REDDIT_PASSWORD", "pw");
                            ("REDDIT_CLIENT_SECRET", "cs")])
       config_file "config.json" = (inr config, [])
     /\ sec (Before config) = sec (Unix 1700000000 0) - 11 * 31536000)
  /\ (exists config,
        LoadConfig (host_with [("REDDIT_PASSWORD", "pw");
                               ("REDDIT_CLIENT_SECRET", "cs");
                               ("REDDIT_YEARS_BACK", "-3")])
          config_file "config.json" = (inr config, [])
        /\ sec (Before config) = sec (Unix 1700000000 0) + 3 * 31536000)
  /\ LoadConfig (host_with [("REDDIT_PASSWORD", "pw");
                            ("REDDIT_CLIENT_SECRET", "cs");
                            ("REDDIT_YEARS_BACK", "seven")])
       config_file "config.json"
     = (inl ErrYearsBack, [MsgInvalidYearsBack]).
Proof.
  assert (Hne : forall a s, String a s <> EmptyString) by discriminate.
  destruct (LoadConfig_years_back
              (host_with [("REDDIT_PASSWORD", "pw");
                          ("REDDIT_CLIENT_SECRET", "cs")])
              config_file "config.json" sample_config eq_refl
              (Hne _ _) (Hne _ _)) as (Hdefault & _ & _).
  destruct (LoadConfig_years_back
              (host_with [("REDDIT_PASSWORD", "pw");
                          ("REDDIT_CLIENT_SECRET", "cs");
                          ("REDDIT_YEARS_BACK", "-3")])
              config_file "config.json" sample_config eq_refl
              (Hne _ _) (Hne _ _)) as (_ & Hnumber & _).
  destruct (LoadConfig_years_back
              (host_with [("REDDIT_PASSWORD", "pw");
                          ("REDDIT_CLIENT_SECRET", "cs");
                          ("REDDIT_YEARS_BACK", "seven")])
              config_file "config.json" sample_config eq_refl
              (Hne _ _) (Hne _ _)) as (_ & _ & Hbad).
  destruct (Hdefault eq_refl) as (c1 & H1 & B1).
  destruct (Hnumber (-3) eq_refl) as (c2 & H2 & B2).
  split; [| split].
  - exists c1. split; [exact H1 |]. rewrite B1. reflexivity.
  - exists c2. split; [exact H2 |]. rewrite B2. reflexivity.
  - exact (Hbad (Hne _ _) eq_refl).
Defined.

(** ** The token exchange, the comments received, the two programs *)

(** X20.  [newAccessToken] (of both files) sends the token request once,
    whatever comes back.  It returns no error exactly when the reply decodes
    and its [error] field is empty, and then the token is the reply's
    [access_token], empty or not; in every other case, also when an
    [access_token] came with the error, the token returned is empty. *)
Theorem newAccessToken_succeeds_exactly_when (p : Config) (r : TokenReply) :
  events (MainGo.newAccessToken p r) = [Do (token_request p)]
  /\ events (Part000.newAccessToken p r) = [Do (token_request p)]
  /\ (snd (value (MainGo.newAccessToken p r)) = None
      <-> exists res, r = TokenDecoded res /\ Error res = EmptyString)
  /\ (snd (value (Part000.newAccessToken p r)) = None
      <-> exists res, r = TokenDecoded res /\ Error res = EmptyString)
  /\ (forall res, r = TokenDecoded res -> Error res = EmptyString ->
      fst (value (MainGo.newAccessToken p r)) = AccessToken res
      /\ fst (value (Part000.newAccessToken p r)) = AccessToken res)
  /\ (snd (value (MainGo.newAccessToken p r)) <> None ->
      fst (value (MainGo.newAccessToken p r)) = EmptyString
      /\ fst (value (Part000.newAccessToken p r)) = EmptyString).
Proof.
  unfold MainGo.newAccessToken, Part000.newAccessToken. run_writer.
  destruct r as [| | | res]; cbn [fst snd];
    [| | | destruct (String.eqb_spec (Error res) EmptyString) as [He | He];
           cbn [negb fst snd]];
    repeat split; intros;
    try discriminate; try congruence;
    try (exists res; now split);
    try (match goal with
         | H : exists _, _ |- _ => destruct H as (? & ? & ?)
         end; congruence);
    try (exfalso; congruence).
Qed.

Lemma listLoop_received_from_pages (say : Msg -> Event) (p : Config)
    (cursor : string) (replies : list FetchReply) :
  say = Stdout \/ say = Stderr ->
  Forall (fun c => exists res,
            In (FetchDecoded res) replies /\ In c (page_comments res))
    (received (listLoop say p cursor replies)).
Proof.
  intros Hsay. revert cursor.
  induction replies as [| reply rest IH]; intros cursor; [constructor |].
  assert (Hrest : forall cur,
            Forall (fun c => exists res,
                      In (FetchDecoded res) (reply :: rest)
                      /\ In c (page_comments res))
              (received (listLoop say p cur rest))).
  { intros cur. eapply Forall_impl; [| apply IH].
    intros c (res & Hin & Hc). exists res. split; [now right | exact Hc]. }
  destruct reply as [| | partial | res]; cbn [listLoop];
    try (destruct Hsay as [-> | ->]; constructor).
  cbn [received]. rewrite received_app.
  rewrite <- (map_map ChildData Send), map_Send_received.
  apply Forall_app. split.
  - apply Forall_forall. intros c Hc. exists res. split; [now left | exact Hc].
  - destruct (Nat.eqb (List.length (Children (Data res))) 0
              || String.eqb (RespAfter (Data res)) EmptyString);
      [constructor | apply Hrest].
Qed.

(** X21.  Every comment the consumer receives was a comment of a page that
    decoded: the producer (of both programs) puts nothing on the channel from
    a body whose decoding failed, however much of it was decoded, nor
    anything of its own making. *)
Theorem only_comments_of_decoded_pages_are_received (p : Config)
    (replies : list FetchReply) :
  Forall (fun c => exists res,
            In (FetchDecoded res) replies /\ In c (page_comments res))
    (received (MainGo.List p replies))
  /\ Forall (fun c => exists res,
               In (FetchDecoded res) replies /\ In c (page_comments res))
       (received (Part000.List p replies)).
Proof.
  split.
  - change (received (MainGo.List p replies))
      with (received (listLoop Stdout p EmptyString replies)).
    apply listLoop_received_from_pages. now left.
  - change (received (Part000.List p replies))
      with (received (listLoop Stderr p EmptyString replies)).
    apply listLoop_received_from_pages. now right.
Qed.

(** X22.  With a token obtained the two programs are the same to the
    platform up to the pauses: on the same policy and the same replies each
    goroutine of [src/main.go] sends the requests its counterpart of
    [part_000] sends, in the same order, the consumers receive the same
    comments, and both runs end alike. *)
Theorem with_a_token_both_programs_send_the_same_requests (p : Config)
    (w : World) (tok : string)
    (Htok : token_of (token_reply w) = Some tok) :
  requests (main_goroutine (MainGo.main (Some p) w))
    = requests (main_goroutine (Part000.main p w))
  /\ requests (list_goroutine (MainGo.main (Some p) w))
     = requests (list_goroutine (Part000.main p w))
  /\ received (list_goroutine (MainGo.main (Some p) w))
     = received (list_goroutine (Part000.main p w))
  /\ outcome (MainGo.main (Some p) w) = outcome (Part000.main p w).
Proof. exact (same_requests_with_token p w tok Htok). Qed.

(** The run over the two-page listing with a token: the same five requests
    from the main goroutine of either program. *)
Lemma same_requests_witness :
  token_of (token_reply world_two_pages) = Some "tok"
  /\ requests (main_goroutine
                 (MainGo.main (Some sample_config) world_two_pages))
     = requests (main_goroutine (Part000.main sample_config world_two_pages))
  /\ outcome (MainGo.main (Some sample_config) world_two_pages)
     = outcome (Part000.main sample_config world_two_pages).
Proof.
  destruct (with_a_token_both_programs_send_the_same_requests sample_config
              world_two_pages "tok" eq_refl) as (Hm & _ & _ & Ho).
  exact (conj eq_refl (conj Hm Ho)).
Defined.
